(** * binlookup: a verified model of the BIN lookup client

    The Go package [binlookup] has one operation, [Search], which checks
    its argument against a regular expression, issues one HTTP GET through
    the package-level [Client], classifies the response by status code and
    decodes the JSON body into a [BIN] record.

    This development embeds [Search] and what it calls: the regular
    expression and its matcher, the error values of [github.com/pkg/errors],
    the HTTP client as a state transformer over an explicit world, and the
    [encoding/json] decoder (scanner, string unquoting and the reflective
    store into the [BIN] struct). *)

From Stdlib Require Import ZArith NArith Bool List String Ascii Lia.
From Stdlib Require Import DecimalString SpecFloat.
From Stdlib Require Import DecimalZ DecimalPos Permutation.
Import ListNotations.

Local Open Scope string_scope.
Local Open Scope Z_scope.

Set Implicit Arguments.
Set Warnings "-register-all".

(* ================================================================== *)
(** * Bytes *)

(** A Go string is a sequence of bytes; [code c] is the byte's value. *)
Definition code (c : ascii) : Z := Z.of_N (N_of_ascii c).

Definition byte_of (z : Z) : ascii := ascii_of_N (Z.to_N z).

Definition is_byte (c d : ascii) : bool := Ascii.eqb c d.

(** The double quote. *)
Definition dquote : ascii := byte_of 34.

Definition in_range (lo hi c : ascii) : bool :=
  (code lo <=? code c) && (code c <=? code hi).

Definition is_digit (c : ascii) : bool := in_range "0" "9" c.

Definition is_digit19 (c : ascii) : bool := in_range "1" "9" c.

(* ================================================================== *)
(** * Package [regexp] *)

Module regexp.

(** The syntax tree of a pattern, restricted to the operators that the
    pattern of [Search] uses ([regexp/syntax]: OpBeginText, OpEndText,
    OpCharClass, OpConcat, OpRepeat). *)
Inductive Regexp : Type :=
| BeginText
| EndText
| CharClass (ranges : list (ascii * ascii))
| Concat (r1 r2 : Regexp)
| Repeat (sub : Regexp) (min max : nat).

Definition in_class (ranges : list (ascii * ascii)) (c : ascii) : bool :=
  existsb (fun r => in_range (fst r) (snd r) c) ranges.

(** Backtracking matcher in continuation-passing style.  [pos] is the
    number of bytes already consumed, [s] the rest of the text, [k] what
    has to match after [r]. *)
Fixpoint accept (r : Regexp) (pos : nat) (s : string)
         (k : nat -> string -> bool) {struct r} : bool :=
  match r with
  | BeginText => Nat.eqb pos 0 && k pos s
  | EndText => match s with EmptyString => k pos s | String _ _ => false end
  | CharClass ranges =>
      match s with
      | EmptyString => false
      | String c s' => in_class ranges c && k (S pos) s'
      end
  | Concat r1 r2 => accept r1 pos s (fun p t => accept r2 p t k)
  | Repeat sub min max =>
      (fix rep (mn mx : nat) (p : nat) (t : string) {struct mx} : bool :=
         match mx with
         | O => Nat.eqb mn 0 && k p t
         | S mx' =>
             accept sub p t (fun p' t' => rep (Nat.pred mn) mx' p' t')
             || (Nat.eqb mn 0 && k p t)
         end) min max pos s
  end.

(** An unanchored search: a match may start at any offset. *)
Fixpoint search (r : Regexp) (pos : nat) (s : string) : bool :=
  accept r pos s (fun _ _ => true)
  || match s with
     | EmptyString => false
     | String _ s' => search r (S pos) s'
     end.

Definition MatchString (r : Regexp) (s : string) : bool := search r 0 s.

End regexp.

(** The pattern of [Search], [^[1-9]\d{3,15}$]. *)
Definition bin_pattern : regexp.Regexp :=
  regexp.Concat regexp.BeginText
    (regexp.Concat (regexp.CharClass [("1"%char, "9"%char)])
       (regexp.Concat
          (regexp.Repeat (regexp.CharClass [("0"%char, "9"%char)]) 3 15)
          regexp.EndText)).

(* ================================================================== *)
(** * Error values *)

(** Errors created outside the repository: by [net/http] and [net/url]
    (the failure of a round trip, a failure while the body is read), by
    [io] and by [encoding/json].  The payload of [json.SyntaxError] (message
    and offset) is not modelled; [json.UnmarshalTypeError] keeps the
    description of the JSON value and the name of the Go type. *)
Inductive foreign_error : Type :=
| url_Error (Op URL : string) (Err : foreign_error)
| net_Error (text : string)
| io_EOF
| io_ErrUnexpectedEOF
| json_SyntaxError
| json_UnmarshalTypeError (Value Type_ : string).

(** The error values [Search] can build: those of package
    [github.com/pkg/errors] (without the recorded call stacks), the
    package's own [StatusCodeError], and foreign errors passed through. *)
Inductive error : Type :=
| fundamental (msg : string)
| withMessage (cause : error) (msg : string)
| withStack (err : error)
| StatusCodeError (code : Z)
| foreign (e : foreign_error).

Module errors.

Definition New (message : string) : error := fundamental message.

Definition WithMessage (err : error) (message : string) : error :=
  withMessage err message.

Definition Wrap (err : error) (message : string) : error :=
  withStack (withMessage err message).

(** [Cause] follows the chain of values that implement [causer]. *)
Fixpoint Cause (err : error) : error :=
  match err with
  | withMessage cause _ => Cause cause
  | withStack e => Cause e
  | _ => err
  end.

End errors.

(* ================================================================== *)
(** * Package [strconv] and [fmt] *)

Module strconv.

(** [fmt.Sprintf("%d", n)]. *)
Definition FormatInt (n : Z) : string := NilZero.string_of_int (Z.to_int n).

(** Leading decimal digits of [s]: their value appended to [m], their
    number added to [n], and what follows them. *)
Fixpoint digits (s : string) (m n : Z) : Z * Z * string :=
  match s with
  | EmptyString => (m, n, s)
  | String c rest =>
      if is_digit c then digits rest (m * 10 + (code c - 48)) (n + 1)
      else (m, n, s)
  end.

Definition sign (s : string) : bool * string :=
  match s with
  | String c rest =>
      if is_byte c "-" then (true, rest)
      else if is_byte c "+" then (false, rest)
      else (false, s)
  | EmptyString => (false, s)
  end.

(** [ParseInt(s, 10, 64)]; [None] stands for a syntax or range error. *)
Definition ParseInt (s : string) : option Z :=
  let (neg, ds) := sign s in
  match digits ds 0 0 with
  | (m, n, EmptyString) =>
      if n =? 0 then None
      else if neg then (if m <=? 2 ^ 63 then Some (- m) else None)
      else (if m <? 2 ^ 63 then Some m else None)
  | _ => None
  end.

(** A [float64] is an IEEE 754 binary64 value. *)
Definition float64 : Type := spec_float.

(** The binary64 value nearest to [m * 10 ^ e10] (ties to even), signed
    by [neg]. *)
Definition nearest (neg : bool) (m e10 : Z) : float64 :=
  if m =? 0 then S754_zero neg
  else if 0 <=? e10 then
    binary_normalize 53 1024 (if neg then - (m * 10 ^ e10) else m * 10 ^ e10)
                     0 neg
  else
    let d := 10 ^ (- e10) in
    let n := m * 2 ^ 1100 in
    binary_round_aux 53 1024 neg (n / d) (-1100)
      (if n mod d =? 0 then loc_Exact else loc_Inexact (2 * (n mod d) ?= d)).

(** [ParseFloat(s, 64)] on a decimal literal (optional sign, digits,
    optional fraction, optional exponent); [None] stands for a syntax
    error or a value out of range. *)
Definition ParseFloat (s : string) : option float64 :=
  let (neg, s1) := sign s in
  let '(m1, n1, s2) := digits s1 0 0 in
  let '(m2, n2, s3) :=
    match s2 with
    | String c rest => if is_byte c "." then digits rest m1 0 else (m1, 0, s2)
    | EmptyString => (m1, 0, s2)
    end in
  let result (e : Z) :=
    match nearest neg m2 (e - n2) with
    | S754_infinity _ | S754_nan => None
    | f => Some f
    end in
  if n1 + n2 =? 0 then None
  else
    match s3 with
    | EmptyString => result 0
    | String c rest =>
        if is_byte c "e" || is_byte c "E" then
          let (eneg, s4) := sign rest in
          match digits s4 0 0 with
          | (e, n, EmptyString) =>
              if n =? 0 then None else result (if eneg then - e else e)
          | _ => None
          end
        else None
    end.

End strconv.

(* ================================================================== *)
(** * Package [net/http] *)

Module http.

Definition StatusOK : Z := 200.
Definition StatusBadRequest : Z := 400.
Definition StatusNotFound : Z := 404.
Definition StatusTooManyRequests : Z := 429.

Definition status_table : list (Z * string) :=
  [ (100, "Continue"); (101, "Switching Protocols"); (102, "Processing");
    (103, "Early Hints");
    (200, "OK"); (201, "Created"); (202, "Accepted");
    (203, "Non-Authoritative Information"); (204, "No Content");
    (205, "Reset Content"); (206, "Partial Content"); (207, "Multi-Status");
    (208, "Already Reported"); (226, "IM Used");
    (300, "Multiple Choices"); (301, "Moved Permanently"); (302, "Found");
    (303, "See Other"); (304, "Not Modified"); (305, "Use Proxy");
    (307, "Temporary Redirect"); (308, "Permanent Redirect");
    (400, "Bad Request"); (401, "Unauthorized"); (402, "Payment Required");
    (403, "Forbidden"); (404, "Not Found"); (405, "Method Not Allowed");
    (406, "Not Acceptable"); (407, "Proxy Authentication Required");
    (408, "Request Timeout"); (409, "Conflict"); (410, "Gone");
    (411, "Length Required"); (412, "Precondition Failed");
    (413, "Request Entity Too Large"); (414, "Request URI Too Long");
    (415, "Unsupported Media Type");
    (416, "Requested Range Not Satisfiable"); (417, "Expectation Failed");
    (418, "I'm a teapot"); (421, "Misdirected Request");
    (422, "Unprocessable Entity"); (423, "Locked");
    (424, "Failed Dependency"); (425, "Too Early");
    (426, "Upgrade Required"); (428, "Precondition Required");
    (429, "Too Many Requests"); (431, "Request Header Fields Too Large");
    (451, "Unavailable For Legal Reasons");
    (500, "Internal Server Error"); (501, "Not Implemented");
    (502, "Bad Gateway"); (503, "Service Unavailable");
    (504, "Gateway Timeout"); (505, "HTTP Version Not Supported");
    (506, "Variant Also Negotiates"); (507, "Insufficient Storage");
    (508, "Loop Detected"); (510, "Not Extended");
    (511, "Network Authentication Required") ].

(** The reason phrase of a status code, empty when the code is unknown. *)
Definition StatusText (code : Z) : string :=
  match find (fun e => fst e =? code) status_table with
  | Some e => snd e
  | None => EmptyString
  end.

Record Request : Type := { Method : string; URL : string }.

(** A response body is a stream: [content] is what [Read] delivers and
    [fault] the error, if any, that [Read] reports after it in place of
    [io.EOF]. *)
Record ReadCloser : Type := { content : string; fault : option foreign_error }.

Record Response : Type := { StatusCode : Z; Body : ReadCloser }.

(** What the program does to the outside, in order. *)
Inductive event : Type :=
| RoundTrip (req : Request)
| BodyClose (resp : Response).

Section Client.
(** [W] is the state of everything behind the transport (the network,
    the upstream service). *)
Variable W : Type.

(** [http.Client]: the transport answers a request with a response or
    an error and moves the outside world on; [Timeout] is a
    [time.Duration], in nanoseconds.  Redirects, cookies and the
    enforcement of the timeout are left to the transport. *)
Record Client : Type :=
  { Transport : Request -> W -> (Response + foreign_error) * W;
    Timeout : Z }.
End Client.

End http.

Module time.
Definition Nanosecond : Z := 1.
Definition Second : Z := 1000000000 * Nanosecond.
End time.

(* ================================================================== *)
(** * Packages [unicode/utf8] and [unicode/utf16] *)

Module utf8.

Definition RuneError : Z := 0xFFFD.
Definition RuneSelf : Z := 0x80.

Definition EncodeRune (r : Z) : list ascii :=
  if (0 <=? r) && (r <? 0x80) then [byte_of r]
  else if (0 <=? r) && (r <? 0x800) then
    [byte_of (Z.lor 0xC0 (Z.shiftr r 6));
     byte_of (Z.lor 0x80 (Z.land r 0x3F))]
  else if (r <? 0) || (0x10FFFF <? r) || ((0xD800 <=? r) && (r <=? 0xDFFF))
  then [byte_of 0xEF; byte_of 0xBF; byte_of 0xBD]
  else if r <? 0x10000 then
    [byte_of (Z.lor 0xE0 (Z.shiftr r 12));
     byte_of (Z.lor 0x80 (Z.land (Z.shiftr r 6) 0x3F));
     byte_of (Z.lor 0x80 (Z.land r 0x3F))]
  else
    [byte_of (Z.lor 0xF0 (Z.shiftr r 18));
     byte_of (Z.lor 0x80 (Z.land (Z.shiftr r 12) 0x3F));
     byte_of (Z.lor 0x80 (Z.land (Z.shiftr r 6) 0x3F));
     byte_of (Z.lor 0x80 (Z.land r 0x3F))].

Fixpoint continuation (n : nat) (l : list ascii) : bool :=
  match n with
  | O => true
  | S n' =>
      match l with
      | [] => false
      | c :: l' => (0x80 <=? code c) && (code c <=? 0xBF) && continuation n' l'
      end
  end.

Definition second (lo hi : Z) (more : nat) (l : list ascii) : bool :=
  match l with
  | [] => false
  | c :: l' => (lo <=? code c) && (code c <=? hi) && continuation more l'
  end.

(** [DecodeRune] on a byte [c >= RuneSelf] followed by [rest]: the number
    of bytes after [c] that belong to the rune when the encoding is
    valid, and 0 when it is not (the rune is then [RuneError] of width
    1). *)
Definition following (c : ascii) (rest : list ascii) : nat :=
  let b := code c in
  if (0xC2 <=? b) && (b <=? 0xDF) then
    if second 0x80 0xBF 0 rest then 1%nat else 0%nat
  else if b =? 0xE0 then if second 0xA0 0xBF 1 rest then 2%nat else 0%nat
  else if (0xE1 <=? b) && (b <=? 0xEC) then
    if second 0x80 0xBF 1 rest then 2%nat else 0%nat
  else if b =? 0xED then if second 0x80 0x9F 1 rest then 2%nat else 0%nat
  else if (0xEE <=? b) && (b <=? 0xEF) then
    if second 0x80 0xBF 1 rest then 2%nat else 0%nat
  else if b =? 0xF0 then if second 0x90 0xBF 2 rest then 3%nat else 0%nat
  else if (0xF1 <=? b) && (b <=? 0xF3) then
    if second 0x80 0xBF 2 rest then 3%nat else 0%nat
  else if b =? 0xF4 then if second 0x80 0x8F 2 rest then 3%nat else 0%nat
  else 0%nat.

End utf8.

Module utf16.

Definition IsSurrogate (r : Z) : bool := (0xD800 <=? r) && (r <? 0xE000).

Definition DecodeRune (r1 r2 : Z) : Z :=
  if (0xD800 <=? r1) && (r1 <? 0xDC00) && (0xDC00 <=? r2) && (r2 <? 0xE000)
  then Z.lor (Z.shiftl (r1 - 0xD800) 10) (r2 - 0xDC00) + 0x10000
  else utf8.RuneError.

End utf16.

(* ================================================================== *)
(** * Package [encoding/json]: values, strings and the scanner *)

Module json.

(** A JSON text as the decoder sees it.  [JNumber] keeps the literal,
    [JString] and the keys of [JObject] hold the unquoted bytes; the
    members of an object stay in the order of the text, duplicates
    included. *)
Inductive Value : Type :=
| JNull
| JBool (b : bool)
| JNumber (lit : string)
| JString (s : string)
| JArray (elems : list Value)
| JObject (members : list (string * Value)).

Definition hexval (c : ascii) : Z :=
  if in_range "0" "9" c then code c - 48
  else if in_range "a" "f" c then code c - 87
  else if in_range "A" "F" c then code c - 55
  else -1.

Definition is_hex (c : ascii) : bool := 0 <=? hexval c.

(** [getu4] on the four bytes after a backslash and [u]. *)
Definition getu4 (h1 h2 h3 h4 : ascii) : Z :=
  if is_hex h1 && is_hex h2 && is_hex h3 && is_hex h4
  then ((hexval h1 * 16 + hexval h2) * 16 + hexval h3) * 16 + hexval h4
  else -1.

Definition escaped (c : ascii) : ascii :=
  if is_byte c "b" then byte_of 8
  else if is_byte c "f" then byte_of 12
  else if is_byte c "n" then byte_of 10
  else if is_byte c "r" then byte_of 13
  else if is_byte c "t" then byte_of 9
  else c.

(** [unquoteBytes] on the bytes between the quotes of a literal the
    scanner has accepted: escapes are replaced, a surrogate pair of
    [\u] escapes becomes one rune, a lone surrogate and every byte that
    is not part of a valid UTF-8 encoding become U+FFFD.  [skip] counts
    the bytes of the current rune still to be copied. *)
Fixpoint unquote_from (skip : nat) (s : list ascii) {struct s} : list ascii :=
  match s with
  | [] => []
  | c :: rest =>
      match skip with
      | S k => c :: unquote_from k rest
      | O =>
          if is_byte c "\" then
            match rest with
            | [] => []
            | e :: rest1 =>
                if is_byte e "u" then
                  match rest1 with
                  | h1 :: h2 :: h3 :: h4 :: rest2 =>
                      let rr := getu4 h1 h2 h3 h4 in
                      if utf16.IsSurrogate rr then
                        match rest2 with
                        | b :: u :: g1 :: g2 :: g3 :: g4 :: rest3 =>
                            let rr1 :=
                              if is_byte b "\" && is_byte u "u"
                              then getu4 g1 g2 g3 g4 else -1 in
                            let dec := utf16.DecodeRune rr rr1 in
                            if dec =? utf8.RuneError
                            then utf8.EncodeRune utf8.RuneError
                                   ++ unquote_from 0 rest2
                            else utf8.EncodeRune dec ++ unquote_from 0 rest3
                        | _ => utf8.EncodeRune utf8.RuneError
                                 ++ unquote_from 0 rest2
                        end
                      else utf8.EncodeRune rr ++ unquote_from 0 rest2
                  | _ => []
                  end
                else escaped e :: unquote_from 0 rest1
            end
          else if code c <? utf8.RuneSelf then c :: unquote_from 0 rest
          else
            match utf8.following c rest with
            | O => utf8.EncodeRune utf8.RuneError ++ unquote_from 0 rest
            | n => c :: unquote_from n rest
            end
      end
  end.

Definition unquote (raw : list ascii) : string :=
  string_of_list_ascii (unquote_from 0 raw).

(** ** The scanner

    [scanner.go] is a state machine fed one byte at a time.  The model
    keeps its step functions as the constructors of [mode] and its
    [parseState] stack as a list of frames; a frame also holds what the
    decoder will have read of the enclosing array or object, and the
    modes of a string or number hold the bytes of the literal so far (in
    reverse), so that one pass yields the [Value]. *)
Inductive mode : Type :=
| stateBeginValue
| stateBeginValueOrEmpty
| stateBeginStringOrEmpty
| stateBeginString
| stateEndValue
| stateInString (acc : list ascii)
| stateInStringEsc (acc : list ascii)
| stateInStringEscU (acc : list ascii)
| stateInStringEscU1 (acc : list ascii)
| stateInStringEscU12 (acc : list ascii)
| stateInStringEscU123 (acc : list ascii)
| stateNeg (acc : list ascii)
| state1 (acc : list ascii)
| state0 (acc : list ascii)
| stateDot (acc : list ascii)
| stateDot0 (acc : list ascii)
| stateE (acc : list ascii)
| stateESign (acc : list ascii)
| stateE0 (acc : list ascii)
| stateT | stateTr | stateTru
| stateF | stateFa | stateFal | stateFals
| stateN | stateNu | stateNul.

(** [parseArrayValue] is [FArray]; [parseObjectKey] is [FKey], before
    ([None]) and after ([Some]) the key has been read; [parseObjectValue]
    is [FVal] while the value is awaited and [FAfter] once it is stored. *)
Inductive frame : Type :=
| FArray (elems : list Value)
| FKey (members : list (string * Value)) (key : option string)
| FVal (members : list (string * Value)) (key : string)
| FAfter (members : list (string * Value)).

Record scanner : Type :=
  { step : mode;
    parseState : list frame;
    top : option Value  (* a finished top-level value, its end not yet seen *) }.

Inductive opcode : Type :=
| scanContinue (s : scanner)
| scanEnd (v : Value)
| scanError.

Definition maxNestingDepth : Z := 10000.

Definition isSpace (c : ascii) : bool :=
  is_byte c " " || is_byte c (byte_of 9) || is_byte c (byte_of 13)
  || is_byte c (byte_of 10).

Definition goto (m : mode) (s : scanner) : opcode :=
  scanContinue {| step := m; parseState := parseState s; top := top s |}.

Definition pushParseState (s : scanner) (f : frame) (m : mode) : opcode :=
  if Z.of_nat (List.length (parseState s)) <? maxNestingDepth
  then scanContinue {| step := m; parseState := f :: parseState s; top := None |}
  else scanError.

(** A finished value goes where the enclosing frame expects it. *)
Definition deliver (v : Value) (st : list frame) : list frame :=
  match st with
  | FArray es :: r => FArray (v :: es) :: r
  | FKey ms None :: r =>
      match v with
      | JString k => FKey ms (Some k) :: r
      | _ => st
      end
  | FVal ms k :: r => FAfter ((k, v) :: ms) :: r
  | _ => st
  end.

(** The value [v] is complete; the next byte is for [stateEndValue]. *)
Definition finish (v : Value) (s : scanner) : scanner :=
  match parseState s with
  | [] => {| step := stateEndValue; parseState := []; top := Some v |}
  | st => {| step := stateEndValue; parseState := deliver v st; top := None |}
  end.

(** [popParseState] after the closing bracket of [v].  With nothing left
    on the stack the top-level value ends here: [readValue] does not wait
    for a further byte after [scanEndObject] and [scanEndArray]. *)
Definition popParseState (v : Value) (rest : list frame) : opcode :=
  match rest with
  | [] => scanEnd v
  | _ => scanContinue
           {| step := stateEndValue; parseState := deliver v rest; top := None |}
  end.

Definition endValue (s : scanner) (c : ascii) : opcode :=
  match parseState s with
  | [] =>
      (* Completed top-level before the current byte. *)
      match top s with
      | Some v => scanEnd v
      | None => scanError
      end
  | f :: rest =>
      if isSpace c then goto stateEndValue s
      else
        match f with
        | FKey ms (Some k) =>
            if is_byte c ":" then
              scanContinue {| step := stateBeginValue;
                              parseState := FVal ms k :: rest; top := None |}
            else scanError
        | FAfter ms =>
            if is_byte c "," then
              scanContinue {| step := stateBeginString;
                              parseState := FKey ms None :: rest; top := None |}
            else if is_byte c "}" then popParseState (JObject (rev ms)) rest
            else scanError
        | FArray es =>
            if is_byte c "," then goto stateBeginValue s
            else if is_byte c "]" then popParseState (JArray (rev es)) rest
            else scanError
        | _ => scanError
        end
  end.

Definition beginValue (s : scanner) (c : ascii) : opcode :=
  if isSpace c then scanContinue s
  else if is_byte c "{" then pushParseState s (FKey [] None) stateBeginStringOrEmpty
  else if is_byte c "[" then pushParseState s (FArray []) stateBeginValueOrEmpty
  else if is_byte c dquote then goto (stateInString []) s
  else if is_byte c "-" then goto (stateNeg [c]) s
  else if is_byte c "0" then goto (state0 [c]) s
  else if is_byte c "t" then goto stateT s
  else if is_byte c "f" then goto stateF s
  else if is_byte c "n" then goto stateN s
  else if is_digit19 c then goto (state1 [c]) s
  else scanError.

Definition beginString (s : scanner) (c : ascii) : opcode :=
  if isSpace c then scanContinue s
  else if is_byte c dquote then goto (stateInString []) s
  else scanError.

(** The end of a number is seen at the first byte that is not part of
    it, which is then handled by [stateEndValue]. *)
Definition endNumber (acc : list ascii) (s : scanner) (c : ascii) : opcode :=
  endValue (finish (JNumber (string_of_list_ascii (rev acc))) s) c.

Definition afterInt (acc : list ascii) (s : scanner) (c : ascii) : opcode :=
  if is_byte c "." then goto (stateDot (c :: acc)) s
  else if is_byte c "e" || is_byte c "E" then goto (stateE (c :: acc)) s
  else endNumber acc s c.

Definition expect (want : ascii) (next : scanner -> opcode)
           (s : scanner) (c : ascii) : opcode :=
  if is_byte c want then next s else scanError.

Definition hex (next : list ascii -> mode) (acc : list ascii)
           (s : scanner) (c : ascii) : opcode :=
  if is_hex c then goto (next (c :: acc)) s else scanError.

(** One byte through the scanner: [s.step(s, c)]. *)
Definition step_byte (s : scanner) (c : ascii) : opcode :=
  match step s with
  | stateBeginValue => beginValue s c
  | stateBeginValueOrEmpty =>
      if isSpace c then scanContinue s
      else if is_byte c "]" then endValue s c
      else beginValue s c
  | stateBeginStringOrEmpty =>
      if isSpace c then scanContinue s
      else if is_byte c "}" then
        match parseState s with
        | FKey ms None :: rest =>
            endValue {| step := stateEndValue;
                        parseState := FAfter ms :: rest; top := None |} c
        | _ => scanError
        end
      else beginString s c
  | stateBeginString => beginString s c
  | stateEndValue => endValue s c
  | stateInString acc =>
      if is_byte c dquote then
        scanContinue (finish (JString (unquote (rev acc))) s)
      else if is_byte c "\" then goto (stateInStringEsc (c :: acc)) s
      else if code c <? 32 then scanError
      else goto (stateInString (c :: acc)) s
  | stateInStringEsc acc =>
      if is_byte c "b" || is_byte c "f" || is_byte c "n" || is_byte c "r"
         || is_byte c "t" || is_byte c "\" || is_byte c "/" || is_byte c dquote
      then goto (stateInString (c :: acc)) s
      else if is_byte c "u" then goto (stateInStringEscU (c :: acc)) s
      else scanError
  | stateInStringEscU acc => hex stateInStringEscU1 acc s c
  | stateInStringEscU1 acc => hex stateInStringEscU12 acc s c
  | stateInStringEscU12 acc => hex stateInStringEscU123 acc s c
  | stateInStringEscU123 acc => hex stateInString acc s c
  | stateNeg acc =>
      if is_byte c "0" then goto (state0 (c :: acc)) s
      else if is_digit19 c then goto (state1 (c :: acc)) s
      else scanError
  | state1 acc =>
      if is_digit c then goto (state1 (c :: acc)) s else afterInt acc s c
  | state0 acc => afterInt acc s c
  | stateDot acc =>
      if is_digit c then goto (stateDot0 (c :: acc)) s else scanError
  | stateDot0 acc =>
      if is_digit c then goto (stateDot0 (c :: acc)) s
      else if is_byte c "e" || is_byte c "E" then goto (stateE (c :: acc)) s
      else endNumber acc s c
  | stateE acc =>
      if is_byte c "+" || is_byte c "-" then goto (stateESign (c :: acc)) s
      else if is_digit c then goto (stateE0 (c :: acc)) s
      else scanError
  | stateESign acc =>
      if is_digit c then goto (stateE0 (c :: acc)) s else scanError
  | stateE0 acc =>
      if is_digit c then goto (stateE0 (c :: acc)) s else endNumber acc s c
  | stateT => expect "r" (goto stateTr) s c
  | stateTr => expect "u" (goto stateTru) s c
  | stateTru => expect "e" (fun s => scanContinue (finish (JBool true) s)) s c
  | stateF => expect "a" (goto stateFa) s c
  | stateFa => expect "l" (goto stateFal) s c
  | stateFal => expect "s" (goto stateFals) s c
  | stateFals => expect "e" (fun s => scanContinue (finish (JBool false) s)) s c
  | stateN => expect "u" (goto stateNu) s c
  | stateNu => expect "l" (goto stateNul) s c
  | stateNul => expect "l" (fun s => scanContinue (finish JNull s)) s c
  end.

(** [scanner.reset]. *)
Definition reset : scanner :=
  {| step := stateBeginValue; parseState := []; top := None |}.

(** The bytes of [input] through the scanner, up to the end of the
    first value or the first error. *)
Fixpoint scan (s : scanner) (input : string) : opcode :=
  match input with
  | EmptyString => scanContinue s
  | String c rest =>
      match step_byte s c with
      | scanContinue s' => scan s' rest
      | r => r
      end
  end.

Fixpoint nonSpace (b : string) : bool :=
  match b with
  | EmptyString => false
  | String c rest => negb (isSpace c) || nonSpace rest
  end.

(** [Decoder.readValue] on a fresh decoder: the first value of the
    stream, or the error that kept it from being read.  What follows the
    value in the stream is not looked at. *)
Definition readValue (body : http.ReadCloser) : Value + foreign_error :=
  match scan reset (http.content body) with
  | scanEnd v => inl v
  | scanError => inr json_SyntaxError
  | scanContinue s =>
      match http.fault body with
      | Some e => inr e
      | None =>
          (* io.EOF: a space is invented to end a number or literal *)
          match step_byte s " " with
          | scanEnd v => inl v
          | _ => if nonSpace (http.content body)
                 then inr io_ErrUnexpectedEOF else inr io_EOF
          end
      end
  end.

(** ** Storing a value into a Go variable

    [decodeState.savedError] keeps the first type error while decoding
    goes on. *)
Definition savedError : Type := option foreign_error.

Definition saveError (err : foreign_error) (d : savedError) : savedError :=
  match d with
  | None => Some err
  | Some _ => d
  end.

(** The word [UnmarshalTypeError.Value] uses for a JSON value. *)
Definition describe (v : Value) : string :=
  match v with
  | JNull => "null"
  | JBool _ => "bool"
  | JNumber _ => "number"
  | JString _ => "string"
  | JArray _ => "array"
  | JObject _ => "object"
  end.

Definition mismatch (v : Value) (type : string) : foreign_error :=
  json_UnmarshalTypeError (describe v) type.

(** [literalStore] and [object] on variables of kind string, bool, int,
    float64 and struct.  [null] leaves such a variable as it is; a value
    of the wrong kind is skipped and reported.  An [int] is 64 bits
    wide. *)
Definition store_string (v : Value) (old : string) (d : savedError)
  : string * savedError :=
  match v with
  | JNull => (old, d)
  | JString s => (s, d)
  | _ => (old, saveError (mismatch v "string") d)
  end.

Definition store_bool (v : Value) (old : bool) (d : savedError)
  : bool * savedError :=
  match v with
  | JNull => (old, d)
  | JBool b => (b, d)
  | _ => (old, saveError (mismatch v "bool") d)
  end.

Definition store_int (v : Value) (old : Z) (d : savedError) : Z * savedError :=
  match v with
  | JNull => (old, d)
  | JNumber lit =>
      match strconv.ParseInt lit with
      | Some n => (n, d)
      | None =>
          (old, saveError (json_UnmarshalTypeError ("number " ++ lit) "int") d)
      end
  | _ => (old, saveError (mismatch v "int") d)
  end.

Definition store_float64 (v : Value) (old : strconv.float64) (d : savedError)
  : strconv.float64 * savedError :=
  match v with
  | JNull => (old, d)
  | JNumber lit =>
      match strconv.ParseFloat lit with
      | Some f => (f, d)
      | None =>
          (old, saveError (json_UnmarshalTypeError ("number " ++ lit) "float64") d)
      end
  | _ => (old, saveError (mismatch v "float64") d)
  end.

(** [foldName]: ASCII letters to upper case; the two runes outside
    ASCII whose case folding reaches an ASCII letter, U+017F and U+212A,
    to [S] and [K].  Other bytes are kept: a key that holds one cannot
    equal the folded name of a field with an ASCII name. *)
Fixpoint foldName (s : string) : string :=
  match s with
  | EmptyString => EmptyString
  | String c rest =>
      if in_range "a" "z" c then String (byte_of (code c - 32)) (foldName rest)
      else
        match rest with
        | String c1 rest1 =>
            if (code c =? 0xC5) && (code c1 =? 0xBF)
            then String "S" (foldName rest1)
            else
              match rest1 with
              | String c2 rest2 =>
                  if (code c =? 0xE2) && (code c1 =? 0x84) && (code c2 =? 0xAA)
                  then String "K" (foldName rest2)
                  else String c (foldName rest)
              | EmptyString => String c (foldName rest)
              end
        | EmptyString => String c (foldName rest)
        end
  end.

(** The field a key selects: the one with exactly that name, else the
    first whose name equals the key under case folding. *)
Definition lookup_field (F : Type) (fields : list (string * F)) (key : string)
  : option F :=
  match find (fun f => String.eqb (fst f) key) fields with
  | Some f => Some (snd f)
  | None =>
      option_map snd
        (find (fun f => String.eqb (foldName (fst f)) (foldName key)) fields)
  end.

(** [decodeState.object] into a struct [x]: the members in the order of
    the text, each stored into the field its key selects, those that
    select none skipped. *)
Definition object (T F : Type) (fields : list (string * F))
           (store : F -> Value -> T -> savedError -> T * savedError)
           (members : list (string * Value)) (x : T) (d : savedError)
  : T * savedError :=
  fold_left
    (fun acc m =>
       match lookup_field fields (fst m) with
       | Some f => store f (snd m) (fst acc) (snd acc)
       | None => acc
       end)
    members (x, d).

Definition store_struct (T : Type) (type : string)
           (members_into : list (string * Value) -> T -> savedError -> T * savedError)
           (v : Value) (old : T) (d : savedError) : T * savedError :=
  match v with
  | JNull => (old, d)
  | JObject ms => members_into ms old d
  | _ => (old, saveError (mismatch v type) d)
  end.

End json.

(* ================================================================== *)
(** * Package [binlookup]: the types *)

(** The projections of the nested records carry the name of their struct
    where Go's field names repeat ([Country.Name], [Bank.Name]) or equal
    the name of a type ([BIN.Number]). *)
Record Number : Type := { Length : Z; Luhn : bool }.

Record Country : Type :=
  { Numeric : string;
    Country_Name : string;
    Emoji : string;
    Currency : string;
    Short : string;
    Lat : strconv.float64;
    Long : strconv.float64 }.

Record Bank : Type :=
  { Bank_Name : string; URL : string; Phone : string; City : string }.

Record BIN : Type :=
  { BIN_Number : Number;
    Scheme : string;
    Type_ : string;
    Brand : string;
    Prepaid : bool;
    BIN_Country : Country;
    BIN_Bank : Bank }.

(** The zero values. *)
Definition zero_float64 : strconv.float64 := S754_zero false.

Definition zero_Number : Number := {| Length := 0; Luhn := false |}.

Definition zero_Country : Country :=
  {| Numeric := EmptyString; Country_Name := EmptyString; Emoji := EmptyString;
     Currency := EmptyString; Short := EmptyString;
     Lat := zero_float64; Long := zero_float64 |}.

Definition zero_Bank : Bank :=
  {| Bank_Name := EmptyString; URL := EmptyString; Phone := EmptyString;
     City := EmptyString |}.

Definition zero_BIN : BIN :=
  {| BIN_Number := zero_Number; Scheme := EmptyString; Type_ := EmptyString;
     Brand := EmptyString; Prepaid := false; BIN_Country := zero_Country;
     BIN_Bank := zero_Bank |}.

(** ** The fields as [encoding/json] sees them

    A field is known to the decoder by its Go name, or by the name in its
    [json] tag. *)
Inductive Number_field : Type := fLength | fLuhn.

Inductive Country_field : Type :=
  fNumeric | fCountryName | fEmoji | fCurrency | fShort | fLat | fLong.

Inductive Bank_field : Type := fBankName | fURL | fPhone | fCity.

Inductive BIN_field : Type :=
  fNumber | fScheme | fType | fBrand | fPrepaid | fCountry | fBank.

Definition Number_fields : list (string * Number_field) :=
  [("Length", fLength); ("Luhn", fLuhn)].

Definition Country_fields : list (string * Country_field) :=
  [("Numeric", fNumeric); ("Name", fCountryName); ("Emoji", fEmoji);
   ("Currency", fCurrency); ("alpha2", fShort); ("latitude", fLat);
   ("longitude", fLong)].

Definition Bank_fields : list (string * Bank_field) :=
  [("Name", fBankName); ("URL", fURL); ("Phone", fPhone); ("City", fCity)].

Definition BIN_fields : list (string * BIN_field) :=
  [("Number", fNumber); ("Scheme", fScheme); ("Type", fType);
   ("Brand", fBrand); ("Prepaid", fPrepaid); ("Country", fCountry);
   ("Bank", fBank)].

Definition store_Number (f : Number_field) (v : json.Value) (x : Number)
           (d : json.savedError) : Number * json.savedError :=
  match f with
  | fLength =>
      let (y, d') := json.store_int v (Length x) d in
      ({| Length := y; Luhn := Luhn x |}, d')
  | fLuhn =>
      let (y, d') := json.store_bool v (Luhn x) d in
      ({| Length := Length x; Luhn := y |}, d')
  end.

Definition store_Country (f : Country_field) (v : json.Value) (x : Country)
           (d : json.savedError) : Country * json.savedError :=
  match f with
  | fNumeric =>
      let (y, d') := json.store_string v (Numeric x) d in
      ({| Numeric := y; Country_Name := Country_Name x; Emoji := Emoji x;
          Currency := Currency x; Short := Short x; Lat := Lat x;
          Long := Long x |}, d')
  | fCountryName =>
      let (y, d') := json.store_string v (Country_Name x) d in
      ({| Numeric := Numeric x; Country_Name := y; Emoji := Emoji x;
          Currency := Currency x; Short := Short x; Lat := Lat x;
          Long := Long x |}, d')
  | fEmoji =>
      let (y, d') := json.store_string v (Emoji x) d in
      ({| Numeric := Numeric x; Country_Name := Country_Name x; Emoji := y;
          Currency := Currency x; Short := Short x; Lat := Lat x;
          Long := Long x |}, d')
  | fCurrency =>
      let (y, d') := json.store_string v (Currency x) d in
      ({| Numeric := Numeric x; Country_Name := Country_Name x;
          Emoji := Emoji x; Currency := y; Short := Short x; Lat := Lat x;
          Long := Long x |}, d')
  | fShort =>
      let (y, d') := json.store_string v (Short x) d in
      ({| Numeric := Numeric x; Country_Name := Country_Name x;
          Emoji := Emoji x; Currency := Currency x; Short := y; Lat := Lat x;
          Long := Long x |}, d')
  | fLat =>
      let (y, d') := json.store_float64 v (Lat x) d in
      ({| Numeric := Numeric x; Country_Name := Country_Name x;
          Emoji := Emoji x; Currency := Currency x; Short := Short x;
          Lat := y; Long := Long x |}, d')
  | fLong =>
      let (y, d') := json.store_float64 v (Long x) d in
      ({| Numeric := Numeric x; Country_Name := Country_Name x;
          Emoji := Emoji x; Currency := Currency x; Short := Short x;
          Lat := Lat x; Long := y |}, d')
  end.

Definition store_Bank (f : Bank_field) (v : json.Value) (x : Bank)
           (d : json.savedError) : Bank * json.savedError :=
  match f with
  | fBankName =>
      let (y, d') := json.store_string v (Bank_Name x) d in
      ({| Bank_Name := y; URL := URL x; Phone := Phone x; City := City x |}, d')
  | fURL =>
      let (y, d') := json.store_string v (URL x) d in
      ({| Bank_Name := Bank_Name x; URL := y; Phone := Phone x;
          City := City x |}, d')
  | fPhone =>
      let (y, d') := json.store_string v (Phone x) d in
      ({| Bank_Name := Bank_Name x; URL := URL x; Phone := y;
          City := City x |}, d')
  | fCity =>
      let (y, d') := json.store_string v (City x) d in
      ({| Bank_Name := Bank_Name x; URL := URL x; Phone := Phone x;
          City := y |}, d')
  end.

Definition store_BIN (f : BIN_field) (v : json.Value) (x : BIN)
           (d : json.savedError) : BIN * json.savedError :=
  match f with
  | fNumber =>
      let (y, d') :=
        json.store_struct "binlookup.Number"
          (json.object Number_fields store_Number) v (BIN_Number x) d in
      ({| BIN_Number := y; Scheme := Scheme x; Type_ := Type_ x;
          Brand := Brand x; Prepaid := Prepaid x;
          BIN_Country := BIN_Country x; BIN_Bank := BIN_Bank x |}, d')
  | fScheme =>
      let (y, d') := json.store_string v (Scheme x) d in
      ({| BIN_Number := BIN_Number x; Scheme := y; Type_ := Type_ x;
          Brand := Brand x; Prepaid := Prepaid x;
          BIN_Country := BIN_Country x; BIN_Bank := BIN_Bank x |}, d')
  | fType =>
      let (y, d') := json.store_string v (Type_ x) d in
      ({| BIN_Number := BIN_Number x; Scheme := Scheme x; Type_ := y;
          Brand := Brand x; Prepaid := Prepaid x;
          BIN_Country := BIN_Country x; BIN_Bank := BIN_Bank x |}, d')
  | fBrand =>
      let (y, d') := json.store_string v (Brand x) d in
      ({| BIN_Number := BIN_Number x; Scheme := Scheme x; Type_ := Type_ x;
          Brand := y; Prepaid := Prepaid x;
          BIN_Country := BIN_Country x; BIN_Bank := BIN_Bank x |}, d')
  | fPrepaid =>
      let (y, d') := json.store_bool v (Prepaid x) d in
      ({| BIN_Number := BIN_Number x; Scheme := Scheme x; Type_ := Type_ x;
          Brand := Brand x; Prepaid := y;
          BIN_Country := BIN_Country x; BIN_Bank := BIN_Bank x |}, d')
  | fCountry =>
      let (y, d') :=
        json.store_struct "binlookup.Country"
          (json.object Country_fields store_Country) v (BIN_Country x) d in
      ({| BIN_Number := BIN_Number x; Scheme := Scheme x; Type_ := Type_ x;
          Brand := Brand x; Prepaid := Prepaid x;
          BIN_Country := y; BIN_Bank := BIN_Bank x |}, d')
  | fBank =>
      let (y, d') :=
        json.store_struct "binlookup.Bank"
          (json.object Bank_fields store_Bank) v (BIN_Bank x) d in
      ({| BIN_Number := BIN_Number x; Scheme := Scheme x; Type_ := Type_ x;
          Brand := Brand x; Prepaid := Prepaid x;
          BIN_Country := BIN_Country x; BIN_Bank := y |}, d')
  end.

(** [indirect]: a nil [*BIN] is pointed at a fresh zero [BIN]. *)
Definition indirect (b : option BIN) : BIN :=
  match b with
  | Some x => x
  | None => zero_BIN
  end.

(** [decodeState.unmarshal] into [&b] with [b] of type [*BIN]: [null] sets
    the pointer to nil; an object is decoded into the struct it points to;
    any other value is a type error, after the pointer has been set. *)
Definition unmarshal (v : json.Value) (b : option BIN)
  : option BIN * option foreign_error :=
  match v with
  | json.JNull => (None, None)
  | json.JObject ms =>
      let (x, d) := json.object BIN_fields store_BIN ms (indirect b) None in
      (Some x, d)
  | _ => (Some (indirect b), Some (json.mismatch v "binlookup.BIN"))
  end.

(** [json.NewDecoder(body).Decode(&b)]. *)
Definition Decode (body : http.ReadCloser) (b : option BIN)
  : option BIN * option foreign_error :=
  match json.readValue body with
  | inr e => (b, Some e)
  | inl v => unmarshal v b
  end.

(* ================================================================== *)
(** * Package [binlookup]: the program *)

(** [StatusCodeError.Error]: [fmt.Sprintf("%d %v", s, http.StatusText(int(s)))]. *)
Definition StatusCodeError_Error (s : Z) : string :=
  strconv.FormatInt s ++ " " ++ http.StatusText s.

Section ErrorText.
(** The text of an error made outside the repository. *)
Variable foreign_text : foreign_error -> string.

(** The method [Error] of each error value. *)
Fixpoint Error (err : error) : string :=
  match err with
  | fundamental msg => msg
  | withMessage cause msg => msg ++ ": " ++ Error cause
  | withStack e => Error e
  | StatusCodeError code => StatusCodeError_Error code
  | foreign e => foreign_text e
  end.
End ErrorText.

Definition validation_message : string :=
  "BIN must be fully numerical, first digit must be in range of 1-9, and the next digits must be 3-15 characters long.".

Definition endpoint : string := "https://lookup.binlist.net/".

Section Program.
Variable W : Type.

(** The state a call runs in: the package variable [Client], the world
    behind the transport, and the record of what the program has done to
    it. *)
Record state : Type :=
  { Client : http.Client W;
    world : W;
    trace : list http.event }.

(** The value [Client] is initialised with: a client with the default
    transport and [Timeout: 10 * time.Second]. *)
Definition default_Client
           (DefaultTransport : http.Request -> W -> (http.Response + foreign_error) * W)
  : http.Client W :=
  {| http.Transport := DefaultTransport; http.Timeout := 10 * time.Second |}.

Definition M (A : Type) : Type := state -> A * state.

Definition ret (A : Type) (a : A) : M A := fun st => (a, st).

Definition bind (A B : Type) (m : M A) (f : A -> M B) : M B :=
  fun st => let (a, st') := m st in f a st'.

Definition emit (e : http.event) : M unit :=
  fun st =>
    (tt, {| Client := Client st; world := world st; trace := trace st ++ [e] |}).

(** [Client.Get(url)]: one GET request handed to the transport of the
    client in the package variable; a failure comes back as a
    [*url.Error]. *)
Definition Get (url : string) : M (http.Response + error) :=
  fun st =>
    let req := {| http.Method := "GET"; http.URL := url |} in
    let (r, w) := http.Transport (Client st) req (world st) in
    (match r with
     | inl resp => inl resp
     | inr e => inr (foreign (url_Error "Get" url e))
     end,
     {| Client := Client st; world := w;
        trace := trace st ++ [http.RoundTrip req] |}).

(** [resp.Body.Close()]. *)
Definition Close (resp : http.Response) : M unit := emit (http.BodyClose resp).

(** [defer cleanup] in front of [body]: [cleanup] runs when [body]
    returns, whatever it returns. *)
Definition defer (A : Type) (cleanup : M unit) (body : M A) : M A :=
  bind body (fun a => bind cleanup (fun _ => ret a)).

(** [Search]: the results are the pointer [b] ([None] is nil) and the
    error [err] ([None] is nil). *)
Definition Search (bin : string) : M (option BIN * option error) :=
  let ok := regexp.MatchString bin_pattern bin in
  if negb ok then ret (None, Some (errors.New validation_message))
  else
    bind (Get (endpoint ++ bin))
      (fun r =>
         match r with
         | inr err => ret (None, Some err)
         | inl resp =>
             defer (Close resp)
               (let s := http.StatusCode resp in
                if s =? http.StatusOK then
                  match Decode (http.Body resp) None with
                  | (b, Some err) =>
                      ret (b, Some (errors.WithMessage (foreign err)
                                      "JSON Unmarshaling Failed"))
                  | (b, None) => ret (b, None)
                  end
                else
                  ret (None,
                       Some (errors.Wrap (StatusCodeError s)
                               "Failed Due to Status Code Error")))
         end).

End Program.

(* ================================================================== *)
(** * Specification side: the format of a BIN in the words of the spec *)

Fixpoint all_digits (s : string) : bool :=
  match s with
  | EmptyString => true
  | String c s' => is_digit c && all_digits s'
  end.

(** "Starts with a digit 1-9, followed by 3 to 15 further digits (total
    length 4-16), entirely numeric." *)
Definition well_formed_bin (s : string) : bool :=
  match s with
  | EmptyString => false
  | String c rest =>
      is_digit19 c && all_digits rest
      && Nat.leb 3 (String.length rest) && Nat.leb (String.length rest) 15
  end.

(** ** The four kinds of failure *)

Inductive failure_kind : Type :=
| ValidationError
| TransportError
| StatusCodeFailure (code : Z)
| DecodeError.

(** What a caller can find out from an error value with the exported
    means of Go: whether it has a method [Cause] (a type assertion to an
    interface), what [errors.Cause] returns for it, and whether it is a
    [*url.Error]. *)
Definition has_Cause (err : error) : bool :=
  match err with
  | withMessage _ _ | withStack _ => true
  | _ => false
  end.

Definition kind_of (err : error) : failure_kind :=
  if has_Cause err then
    match errors.Cause err with
    | StatusCodeError code => StatusCodeFailure code
    | _ => DecodeError
    end
  else
    match err with
    | foreign (url_Error _ _ _) => TransportError
    | _ => ValidationError
    end.

(** The request of a lookup, as the spec gives it:
    [GET https://lookup.binlist.net/<bin>]. *)
Definition lookup_request (bin : string) : http.Request :=
  {| http.Method := "GET"; http.URL := "https://lookup.binlist.net/" ++ bin |}.

(** The requests in a trace. *)
Fixpoint requests (tr : list http.event) : list http.Request :=
  match tr with
  | [] => []
  | http.RoundTrip req :: rest => req :: requests rest
  | http.BodyClose _ :: rest => requests rest
  end.

Section Occurred.
Variable W : Type.

(** The answer of the transport to the lookup request in state [st]. *)
Definition answer (bin : string) (st : state W)
  : http.Response + foreign_error :=
  fst (http.Transport (Client st) (lookup_request bin) (world st)).

(** The failure a call meets, by the conditions of the spec's error
    table: the format of [bin], then the answer of the transport, then
    the status code, then the decoder. *)
Definition occurred (bin : string) (st : state W) : option failure_kind :=
  if negb (well_formed_bin bin) then Some ValidationError
  else
    match answer bin st with
    | inr _ => Some TransportError
    | inl resp =>
        if http.StatusCode resp =? 200 then
          match snd (Decode (http.Body resp) None) with
          | Some _ => Some DecodeError
          | None => None
          end
        else Some (StatusCodeFailure (http.StatusCode resp))
    end.
End Occurred.

(** ** The payload of a successful response, in the words of the spec

    "A JSON body shaped as" an object with the members [number] (an object
    with [length], an int, and [luhn], a bool), [scheme], [type], [brand]
    (strings), [prepaid] (a bool), [country] (an object with five strings
    and the numbers [latitude] and [longitude]) and [bank] (an object with
    four strings); "all fields optional/nullable", and "missing fields
    decode to zero-value equivalents". *)
Module payload.

Import json.

(** The value of the member named [k] of an object. *)
Definition member (k : string) (ms : list (string * Value)) : option Value :=
  option_map snd (find (fun m => String.eqb k (fst m)) ms).

(** The Go value of a member: what the member holds when it is present
    and not [null], and [otherwise] (the zero value) if not. *)
Definition string_at (k : string) (ms : list (string * Value))
           (otherwise : string) : string :=
  match member k ms with
  | Some (JString s) => s
  | _ => otherwise
  end.

Definition bool_at (k : string) (ms : list (string * Value))
           (otherwise : bool) : bool :=
  match member k ms with
  | Some (JBool b) => b
  | _ => otherwise
  end.

Definition int_at (k : string) (ms : list (string * Value))
           (otherwise : Z) : Z :=
  match member k ms with
  | Some (JNumber lit) =>
      match strconv.ParseInt lit with
      | Some n => n
      | None => otherwise
      end
  | _ => otherwise
  end.

Definition float64_at (k : string) (ms : list (string * Value))
           (otherwise : strconv.float64) : strconv.float64 :=
  match member k ms with
  | Some (JNumber lit) =>
      match strconv.ParseFloat lit with
      | Some f => f
      | None => otherwise
      end
  | _ => otherwise
  end.

(** The members of a member that is an object; none when the member is
    absent or [null]. *)
Definition object_at (k : string) (ms : list (string * Value))
  : list (string * Value) :=
  match member k ms with
  | Some (JObject ms') => ms'
  | _ => []
  end.

Definition Number_from (x : Number) (ms : list (string * Value)) : Number :=
  {| Length := int_at "length" ms (Length x);
     Luhn := bool_at "luhn" ms (Luhn x) |}.

Definition Country_from (x : Country) (ms : list (string * Value)) : Country :=
  {| Numeric := string_at "numeric" ms (Numeric x);
     Country_Name := string_at "name" ms (Country_Name x);
     Emoji := string_at "emoji" ms (Emoji x);
     Currency := string_at "currency" ms (Currency x);
     Short := string_at "alpha2" ms (Short x);
     Lat := float64_at "latitude" ms (Lat x);
     Long := float64_at "longitude" ms (Long x) |}.

Definition Bank_from (x : Bank) (ms : list (string * Value)) : Bank :=
  {| Bank_Name := string_at "name" ms (Bank_Name x);
     URL := string_at "url" ms (URL x);
     Phone := string_at "phone" ms (Phone x);
     City := string_at "city" ms (City x) |}.

Definition BIN_from (x : BIN) (ms : list (string * Value)) : BIN :=
  {| BIN_Number := Number_from (BIN_Number x) (object_at "number" ms);
     Scheme := string_at "scheme" ms (Scheme x);
     Type_ := string_at "type" ms (Type_ x);
     Brand := string_at "brand" ms (Brand x);
     Prepaid := bool_at "prepaid" ms (Prepaid x);
     BIN_Country := Country_from (BIN_Country x) (object_at "country" ms);
     BIN_Bank := Bank_from (BIN_Bank x) (object_at "bank" ms) |}.

(** The record the spec promises for a payload: member by member, the
    zero value for what is absent or [null]. *)
Definition LookupResult (v : Value) : BIN :=
  match v with
  | JObject ms => BIN_from zero_BIN ms
  | _ => zero_BIN
  end.

(** *** The expected shape *)

Inductive kind : Type := KString | KBool | KInt | KNumber.

Inductive shape : Type :=
| Scalar (t : kind)
| Composite (members : list (string * kind)).

Definition number_members : list (string * kind) :=
  [("length", KInt); ("luhn", KBool)].

Definition country_members : list (string * kind) :=
  [("numeric", KString); ("alpha2", KString); ("name", KString);
   ("emoji", KString); ("currency", KString); ("latitude", KNumber);
   ("longitude", KNumber)].

Definition bank_members : list (string * kind) :=
  [("name", KString); ("url", KString); ("phone", KString);
   ("city", KString)].

Definition payload_members : list (string * shape) :=
  [("number", Composite number_members); ("scheme", Scalar KString);
   ("type", Scalar KString); ("brand", Scalar KString);
   ("prepaid", Scalar KBool); ("country", Composite country_members);
   ("bank", Composite bank_members)].

Definition is_some (A : Type) (o : option A) : bool :=
  match o with
  | Some _ => true
  | None => false
  end.

(** A value fits a kind when it is [null] or of that kind: an int is a
    number literal that [int] can hold, a number one that [float64] can
    hold. *)
Definition fits (t : kind) (v : Value) : bool :=
  match v with
  | JNull => true
  | JString _ => match t with KString => true | _ => false end
  | JBool _ => match t with KBool => true | _ => false end
  | JNumber lit =>
      match t with
      | KInt => is_some (strconv.ParseInt lit)
      | KNumber => is_some (strconv.ParseFloat lit)
      | _ => false
      end
  | _ => false
  end.

Definition known (A : Type) (schema : list (string * A)) (k : string)
  : option A :=
  option_map snd (find (fun e => String.eqb (fst e) k) schema).

(** A key that differs from a name of the schema in the case of its
    letters only. *)
Definition case_variant (A : Type) (schema : list (string * A)) (k : string)
  : bool :=
  existsb (fun e => String.eqb (foldName (fst e)) (foldName k)) schema.

Fixpoint distinct_keys (ms : list (string * Value)) : bool :=
  match ms with
  | [] => true
  | m :: rest =>
      negb (existsb (fun m' => String.eqb (fst m) (fst m')) rest)
      && distinct_keys rest
  end.

(** The members of an object fit a schema when no key occurs twice,
    each member named in the schema fits what the schema says, and a
    member not named there is not a case variant of one that is. *)
Definition members_fit (A : Type) (fit : A -> Value -> bool)
           (schema : list (string * A)) (ms : list (string * Value)) : bool :=
  distinct_keys ms
  && forallb
       (fun m =>
          match known schema (fst m) with
          | Some t => fit t (snd m)
          | None => negb (case_variant schema (fst m))
          end) ms.

Definition fits_shape (s : shape) (v : Value) : bool :=
  match s with
  | Scalar t => fits t v
  | Composite schema =>
      match v with
      | JNull => true
      | JObject ms => members_fit fits schema ms
      | _ => false
      end
  end.

Definition expected_shape (v : Value) : bool :=
  match v with
  | JObject ms => members_fit fits_shape payload_members ms
  | _ => false
  end.

End payload.

(** ** A mocked upstream

    The transport of the spec's test scenarios: it answers every request
    the same way and has no state of its own. *)
Definition mock_upstream (r : http.Response + foreign_error)
  : http.Request -> unit -> (http.Response + foreign_error) * unit :=
  fun _ w => (r, w).

Definition mock_state (r : http.Response + foreign_error) : state unit :=
  {| Client := default_Client (mock_upstream r); world := tt; trace := [] |}.

(** A JSON text written with an apostrophe where the text has a double
    quote. *)
Fixpoint json_text (s : string) : string :=
  match s with
  | EmptyString => EmptyString
  | String c rest =>
      String (if is_byte c "'" then dquote else c) (json_text rest)
  end.

Definition reply (status : Z) (text : string) : http.Response + foreign_error :=
  inl {| http.StatusCode := status;
         http.Body := {| http.content := json_text text; http.fault := None |} |}.

(** The payload of a lookup of a Danish debit card, as upstream sends
    it. *)
Definition denmark : string :=
  "{'number':{'length':16,'luhn':true},'scheme':'visa','type':'debit','brand':'Visa/Dankort','prepaid':false,'country':{'numeric':'208','alpha2':'DK','name':'Denmark','emoji':'🇩🇰','currency':'DKK','latitude':56,'longitude':10},'bank':{'name':'Jyske Bank','url':'www.jyskebank.dk','phone':'+4589893300','city':'Hjørring'}}".

Definition denmark_value : json.Value :=
  Eval vm_compute in
    match json.readValue
            {| http.content := json_text denmark; http.fault := None |} with
    | inl v => v
    | inr _ => json.JNull
    end.

(** The state after the request of a lookup: the world as the transport
    left it, and the request and what closed the call added to the
    trace. *)
Definition after_request (W : Type) (bin : string) (st : state W) (w : W)
           (closing : list http.event) : state W :=
  {| Client := Client st; world := w;
     trace := trace st ++ http.RoundTrip (lookup_request bin) :: closing |}.

(* ================================================================== *)
(** * The kinds of the fields, and values a field accepts *)

(** The Go kind of each field, from the struct declarations. *)
Definition Number_kind (f : Number_field) : payload.kind :=
  match f with
  | fLength => payload.KInt
  | fLuhn => payload.KBool
  end.

Definition Country_kind (f : Country_field) : payload.kind :=
  match f with
  | fLat | fLong => payload.KNumber
  | _ => payload.KString
  end.

Definition Bank_kind (f : Bank_field) : payload.kind := payload.KString.

(** The members of an object are typed for a struct when each member
    that selects a field holds [null] or a value of the field's kind;
    keys may repeat, and a member that selects no field may hold
    anything. *)
Definition typed_members (F : Type) (fields : list (string * F))
           (accepts : F -> json.Value -> bool)
           (ms : list (string * json.Value)) : bool :=
  forallb
    (fun m =>
       match json.lookup_field fields (fst m) with
       | Some f => accepts f (snd m)
       | None => true
       end) ms.

Definition typed_struct (F : Type) (fields : list (string * F))
           (kind : F -> payload.kind) (v : json.Value) : bool :=
  match v with
  | json.JNull => true
  | json.JObject ms =>
      typed_members fields (fun f => payload.fits (kind f)) ms
  | _ => false
  end.

Definition BIN_accepts (f : BIN_field) (v : json.Value) : bool :=
  match f with
  | fNumber => typed_struct Number_fields Number_kind v
  | fScheme | fType | fBrand => payload.fits payload.KString v
  | fPrepaid => payload.fits payload.KBool v
  | fCountry => typed_struct Country_fields Country_kind v
  | fBank => typed_struct Bank_fields Bank_kind v
  end.

Definition BIN_typed (ms : list (string * json.Value)) : bool :=
  typed_members BIN_fields BIN_accepts ms.

(** The names of a table of fields differ pairwise under case folding. *)
Fixpoint distinct_folded (F : Type) (fields : list (string * F)) : bool :=
  match fields with
  | [] => true
  | f :: rest =>
      negb (existsb
              (fun g => String.eqb (json.foldName (fst g)) (json.foldName (fst f)))
              rest)
      && distinct_folded rest
  end.

(** The field a key selects when only the folded names are compared. *)
Definition folded_field (F : Type) (fields : list (string * F)) (key : string)
  : option F :=
  option_map snd
    (find (fun f => String.eqb (json.foldName (fst f)) (json.foldName key))
          fields).

(** What stands before the first space of a text. *)
Fixpoint before_space (s : string) : string :=
  match s with
  | EmptyString => EmptyString
  | String c rest =>
      if is_byte c " " then EmptyString else String c (before_space rest)
  end.

Fixpoint no_space (s : string) : bool :=
  match s with
  | EmptyString => true
  | String c rest => negb (is_byte c " ") && no_space rest
  end.

(* ================================================================== *)
(** * The tests of the package *)

Definition CorrectBIN : string := "5288230".
Definition IncorrectBIN : string := "0812436".

(** How a test ends: it returns, or [t.Fatal] / [t.Fatalf] stops it with
    what it logs (an error value, the error of the expired context, or a
    text). *)
Inductive outcome : Type :=
| passed
| Fatal_error (err : error)
| Fatal_deadline
| Fatal_text (msg : string).

Section Tests.
Variable W : Type.

(** Whether [ctx.Done()] is ready when the [select] looks at it: the
    deadline of ten seconds is a matter of the clock, which is part of the
    world outside. *)
Variable deadline_passed : W -> bool.

Definition ctx_Done : M W bool := fun st => (deadline_passed (world st), st).

(** [TestSearchWithCorrectBIN]: the label [expedition] and the [goto]
    back to it form a loop; [fuel] bounds the number of passes, and [None]
    is a run cut off by it. *)
Fixpoint expedition (fuel : nat) : M W (option outcome) :=
  match fuel with
  | O => ret None
  | S fuel' =>
      bind (Search CorrectBIN)
        (fun r =>
           match snd r with
           | None => ret (Some passed)
           | Some err =>
               match errors.Cause err with
               | StatusCodeError sce =>
                   if sce =? http.StatusTooManyRequests then
                     bind ctx_Done
                       (fun done =>
                          if (done : bool) then ret (Some Fatal_deadline)
                          else expedition fuel')
                   else ret (Some (Fatal_error err))
               | _ => ret (Some (Fatal_error err))
               end
           end)
  end.

Definition TestSearchWithCorrectBIN (fuel : nat) : M W (option outcome) :=
  expedition fuel.

(** [TestSearchWithIncorrectBIN]. *)
Definition TestSearchWithIncorrectBIN : M W outcome :=
  bind (Search IncorrectBIN)
    (fun r =>
       match snd r with
       | None =>
           ret (Fatal_text
                  (IncorrectBIN
                   ++ " is an incorrect BIN but Search returned nil error."))
       | Some _ => ret passed
       end).

(** The state after [n] calls of [Search CorrectBIN], one after the
    other. *)
Fixpoint after_calls (n : nat) (st : state W) : state W :=
  match n with
  | O => st
  | S n' => after_calls n' (snd (Search CorrectBIN st))
  end.

(** Upstream throttles the call made in [st], and the deadline has not
    passed when the call returns. *)
Definition throttled (st : state W) : Prop :=
  (exists resp,
      answer CorrectBIN st = inl resp
      /\ http.StatusCode resp = http.StatusTooManyRequests)
  /\ deadline_passed (world (snd (Search CorrectBIN st))) = false.

End Tests.

(** A scripted upstream: the world is the list of the answers still to
    come; when it is used up the transport fails. *)
Definition scripted_upstream
  : http.Request -> list (http.Response + foreign_error)
    -> (http.Response + foreign_error) * list (http.Response + foreign_error) :=
  fun _ w =>
    match w with
    | [] => (inr (net_Error "script used up"), [])
    | r :: rest => (r, rest)
    end.

Definition scripted_state (script : list (http.Response + foreign_error))
  : state (list (http.Response + foreign_error)) :=
  {| Client := default_Client scripted_upstream; world := script; trace := [] |}.

(** Upstream throttles two calls and answers the third. *)
Definition throttled_twice : list (http.Response + foreign_error) :=
  [reply 429 EmptyString; reply 429 EmptyString; reply 200 denmark].

(* ================================================================== *)
(** * Theorems *)

Example match_correct_bin : regexp.MatchString bin_pattern "5288230" = true.
Proof. reflexivity. Qed.

Example match_incorrect_bin : regexp.MatchString bin_pattern "0812436" = false.
Proof. reflexivity. Qed.

(** ** The pattern and the format of the spec *)

Lemma accept_Repeat_O (sub : regexp.Regexp) (mn p : nat) (t : string)
      (k : nat -> string -> bool) :
  regexp.accept (regexp.Repeat sub mn 0) p t k = Nat.eqb mn 0 && k p t.
Proof. reflexivity. Qed.

Lemma accept_Repeat_S (sub : regexp.Regexp) (mn mx p : nat) (t : string)
      (k : nat -> string -> bool) :
  regexp.accept (regexp.Repeat sub mn (S mx)) p t k
  = regexp.accept sub p t
      (fun p' t' => regexp.accept (regexp.Repeat sub (Nat.pred mn) mx) p' t' k)
    || (Nat.eqb mn 0 && k p t).
Proof. reflexivity. Qed.

Lemma in_class_digit (c : ascii) :
  regexp.in_class [("0"%char, "9"%char)] c = is_digit c.
Proof. unfold regexp.in_class; simpl; apply orb_false_r. Qed.

Lemma in_class_digit19 (c : ascii) :
  regexp.in_class [("1"%char, "9"%char)] c = is_digit19 c.
Proof. unfold regexp.in_class; simpl; apply orb_false_r. Qed.

(** Between [mn] and [mx] digits and then the end of the text. *)
Lemma accept_digits_to_end (mx : nat) :
  forall (mn p : nat) (t : string) (k : nat -> string -> bool),
    (forall q, k q EmptyString = true) ->
    regexp.accept
      (regexp.Concat
         (regexp.Repeat (regexp.CharClass [("0"%char, "9"%char)]) mn mx)
         regexp.EndText) p t k
    = all_digits t && Nat.leb mn (String.length t)
      && Nat.leb (String.length t) mx.
Proof.
  induction mx as [|mx IH]; intros mn p t k Hk.
  - change (Nat.eqb mn 0
            && match t with EmptyString => k p t | String _ _ => false end
            = all_digits t && Nat.leb mn (String.length t)
              && Nat.leb (String.length t) 0).
    destruct t as [|c t]; simpl.
    + rewrite Hk. destruct mn; reflexivity.
    + rewrite !andb_false_r. reflexivity.
  - specialize (IH (Nat.pred mn)).
    change (regexp.accept
              (regexp.Repeat (regexp.CharClass [("0"%char, "9"%char)]) mn (S mx))
              p t (fun q u => regexp.accept regexp.EndText q u k)
            = all_digits t && Nat.leb mn (String.length t)
              && Nat.leb (String.length t) (S mx)).
    rewrite accept_Repeat_S.
    destruct t as [|c t].
    + simpl. rewrite Hk. destruct mn; reflexivity.
    + change (regexp.in_class [("0"%char, "9"%char)] c
              && regexp.accept
                   (regexp.Concat
                      (regexp.Repeat (regexp.CharClass [("0"%char, "9"%char)])
                         (Nat.pred mn) mx) regexp.EndText) (S p) t k
              || (Nat.eqb mn 0 && false)
              = all_digits (String c t) && Nat.leb mn (String.length (String c t))
                && Nat.leb (String.length (String c t)) (S mx)).
      rewrite IH by assumption. rewrite in_class_digit, andb_false_r, orb_false_r.
      simpl. destruct mn as [|mn]; simpl; rewrite ?andb_assoc; reflexivity.
Qed.

Lemma search_needs_start (s : string) :
  forall pos : nat, regexp.search bin_pattern (S pos) s = false.
Proof.
  induction s as [|c s IH]; intro pos; simpl; try rewrite IH; reflexivity.
Qed.

(** The pattern accepts exactly the strings of the spec's format. *)
Lemma MatchString_well_formed (s : string) :
  regexp.MatchString bin_pattern s = well_formed_bin s.
Proof.
  unfold regexp.MatchString.
  destruct s as [|c s].
  - reflexivity.
  - change (regexp.in_class [("1"%char, "9"%char)] c
            && regexp.accept
                 (regexp.Concat
                    (regexp.Repeat (regexp.CharClass [("0"%char, "9"%char)]) 3 15)
                    regexp.EndText) 1 s (fun _ _ => true)
            || regexp.search bin_pattern 1 s = well_formed_bin (String c s)).
    rewrite search_needs_start, orb_false_r, in_class_digit19.
    rewrite accept_digits_to_end by reflexivity.
    unfold well_formed_bin. rewrite !andb_assoc. reflexivity.
Qed.

(** ** The paths through [Search] *)

Section Paths.
Variable W : Type.
Implicit Types (st : state W) (bin : string).

Lemma Search_rejects bin st :
  well_formed_bin bin = false ->
  Search bin st = ((None, Some (fundamental validation_message)), st).
Proof.
  intro H. unfold Search. rewrite MatchString_well_formed, H. reflexivity.
Qed.

(** [Search] on a well-formed [bin], up to the answer of the transport. *)
Lemma Search_requests bin st :
  well_formed_bin bin = true ->
  Search bin st
  = (let (r, w) := http.Transport (Client st) (lookup_request bin) (world st) in
     match r with
     | inr e =>
         ((None, Some (foreign (url_Error "Get" (http.URL (lookup_request bin)) e))),
          after_request bin st w [])
     | inl resp =>
         (if http.StatusCode resp =? 200 then
            match Decode (http.Body resp) None with
            | (b, Some e) =>
                (b, Some (withMessage (foreign e) "JSON Unmarshaling Failed"))
            | (b, None) => (b, None)
            end
          else
            (None,
             Some (withStack (withMessage (StatusCodeError (http.StatusCode resp))
                                "Failed Due to Status Code Error"))),
          after_request bin st w [http.BodyClose resp])
     end).
Proof.
  intro H. unfold Search. rewrite MatchString_well_formed, H.
  cbn [negb]. unfold bind at 1. unfold Get.
  change {| http.Method := "GET"; http.URL := endpoint ++ bin |}
    with (lookup_request bin).
  destruct (http.Transport (Client st) (lookup_request bin) (world st))
    as [[resp|e] w].
  - unfold defer, bind, Close, emit, ret, after_request, http.StatusOK.
    destruct (http.StatusCode resp =? 200).
    + destruct (Decode (http.Body resp) None) as [b [e|]];
        cbn [Client world trace]; rewrite <- app_assoc; reflexivity.
    + cbn [Client world trace]; rewrite <- app_assoc; reflexivity.
  - reflexivity.
Qed.

Lemma Search_transport_fails bin st e w :
  well_formed_bin bin = true ->
  http.Transport (Client st) (lookup_request bin) (world st) = (inr e, w) ->
  Search bin st
  = ((None, Some (foreign (url_Error "Get" (http.URL (lookup_request bin)) e))),
     after_request bin st w []).
Proof.
  intros H T. rewrite Search_requests by assumption. rewrite T. reflexivity.
Qed.

Lemma Search_bad_status bin st resp w :
  well_formed_bin bin = true ->
  http.Transport (Client st) (lookup_request bin) (world st) = (inl resp, w) ->
  http.StatusCode resp <> 200 ->
  Search bin st
  = ((None,
      Some (withStack (withMessage (StatusCodeError (http.StatusCode resp))
                         "Failed Due to Status Code Error"))),
     after_request bin st w [http.BodyClose resp]).
Proof.
  intros H T S. rewrite Search_requests by assumption. rewrite T.
  apply Z.eqb_neq in S. rewrite S. reflexivity.
Qed.

Lemma Search_decode_fails bin st resp w b e :
  well_formed_bin bin = true ->
  http.Transport (Client st) (lookup_request bin) (world st) = (inl resp, w) ->
  http.StatusCode resp = 200 ->
  Decode (http.Body resp) None = (b, Some e) ->
  Search bin st
  = ((b, Some (withMessage (foreign e) "JSON Unmarshaling Failed")),
     after_request bin st w [http.BodyClose resp]).
Proof.
  intros H T S D. rewrite Search_requests by assumption.
  rewrite T, S, D. reflexivity.
Qed.

Lemma Search_succeeds bin st resp w b :
  well_formed_bin bin = true ->
  http.Transport (Client st) (lookup_request bin) (world st) = (inl resp, w) ->
  http.StatusCode resp = 200 ->
  Decode (http.Body resp) None = (b, None) ->
  Search bin st = ((b, None), after_request bin st w [http.BodyClose resp]).
Proof.
  intros H T S D. rewrite Search_requests by assumption.
  rewrite T, S, D. reflexivity.
Qed.

End Paths.

(** ** What the results and the trace of a call are *)

Lemma requests_app (tr1 tr2 : list http.event) :
  requests (tr1 ++ tr2) = (requests tr1 ++ requests tr2)%list.
Proof.
  induction tr1 as [|[req|resp] tr1 IH]; simpl; rewrite ?IH; reflexivity.
Qed.

(** The results of a call are a function of [bin] and of the answer of
    the transport alone. *)
Lemma Search_result_by_answer (W : Type) (bin : string) (st st' : state W) :
  answer bin st = answer bin st' ->
  fst (Search bin st) = fst (Search bin st').
Proof.
  intro A. destruct (well_formed_bin bin) eqn:H.
  - rewrite !Search_requests by assumption. unfold answer in A.
    destruct (http.Transport (Client st) (lookup_request bin) (world st))
      as [r w].
    destruct (http.Transport (Client st') (lookup_request bin) (world st'))
      as [r' w'].
    simpl in A. subst r'. destruct r as [resp|e]; reflexivity.
  - rewrite !Search_rejects by assumption. reflexivity.
Qed.

(** A call leaves the package variable [Client] as it found it. *)
Lemma Search_keeps_Client (W : Type) (bin : string) (st : state W) :
  Client (snd (Search bin st)) = Client st.
Proof.
  destruct (well_formed_bin bin) eqn:H.
  - rewrite Search_requests by assumption.
    destruct (http.Transport (Client st) (lookup_request bin) (world st))
      as [[resp|e] w]; reflexivity.
  - rewrite Search_rejects by assumption. reflexivity.
Qed.

(** The trace of a call on a well-formed [bin]: the request, and the
    closing of the body when there was a response. *)
Lemma Search_trace (W : Type) (bin : string) (st : state W) :
  well_formed_bin bin = true ->
  trace (snd (Search bin st))
  = (trace st ++ http.RoundTrip (lookup_request bin)
       :: match answer bin st with
          | inl resp => [http.BodyClose resp]
          | inr _ => []
          end)%list.
Proof.
  intro H. rewrite Search_requests by assumption. unfold answer.
  destruct (http.Transport (Client st) (lookup_request bin) (world st))
    as [[resp|e] w]; reflexivity.
Qed.

Lemma Search_world (W : Type) (bin : string) (st : state W) :
  world (snd (Search bin st))
  = if well_formed_bin bin
    then snd (http.Transport (Client st) (lookup_request bin) (world st))
    else world st.
Proof.
  destruct (well_formed_bin bin) eqn:H.
  - rewrite Search_requests by assumption.
    destruct (http.Transport (Client st) (lookup_request bin) (world st))
      as [[resp|e] w]; reflexivity.
  - rewrite Search_rejects by assumption. reflexivity.
Qed.

(** ** Validation *)

(** C1. For every string that is not in the format "a digit 1-9 followed
    by 3 to 15 further digits", [Search] returns at once a nil result and
    the validation error, whose text describes the format; the state is
    the one the call started in, so the transport has not been invoked
    and no request has been made. *)
Theorem Search_validation_error (W : Type) (s : string) (st : state W) :
  well_formed_bin s = false ->
  Search s st = ((None, Some (errors.New validation_message)), st)
  /\ kind_of (errors.New validation_message) = ValidationError
  /\ (forall text, Error text (errors.New validation_message)
                   = validation_message)
  /\ requests (trace (snd (Search s st))) = requests (trace st).
Proof.
  intro H. rewrite Search_rejects by assumption. repeat split.
Qed.

Lemma Search_validation_error_witness :
  Search "0812436" (mock_state (reply 200 "{}"))
  = ((None, Some (errors.New validation_message)), mock_state (reply 200 "{}")).
Proof.
  apply (@Search_validation_error unit "0812436" (mock_state (reply 200 "{}"))).
  reflexivity.
Defined.

(** ** Status codes *)

Example status_429_text (text : foreign_error -> string) :
  Error text (errors.Wrap (StatusCodeError 429) "Failed Due to Status Code Error")
  = "Failed Due to Status Code Error: 429 Too Many Requests".
Proof. reflexivity. Qed.

Example status_404_text (text : foreign_error -> string) :
  Error text (errors.Wrap (StatusCodeError 404) "Failed Due to Status Code Error")
  = "Failed Due to Status Code Error: 404 Not Found".
Proof. reflexivity. Qed.

(** C2. For every response with a status code other than 200, [Search]
    returns a nil result and an error whose cause is the
    [StatusCodeError] holding exactly the status code of the response; a
    caller reads the code from the error value ([kind_of]), and the text
    of the error ends with the code in decimal, a space and the reason
    phrase of the code. *)
Theorem Search_status_code_error (W : Type) (bin : string) (st : state W)
        (resp : http.Response) (w : W) :
  well_formed_bin bin = true ->
  http.Transport (Client st) (lookup_request bin) (world st) = (inl resp, w) ->
  http.StatusCode resp <> 200 ->
  let code := http.StatusCode resp in
  let err := errors.Wrap (StatusCodeError code) "Failed Due to Status Code Error" in
  fst (Search bin st) = (None, Some err)
  /\ errors.Cause err = StatusCodeError code
  /\ kind_of err = StatusCodeFailure code
  /\ (forall text,
         Error text err
         = "Failed Due to Status Code Error: "
             ++ strconv.FormatInt code ++ " " ++ http.StatusText code).
Proof.
  intros H T S code err.
  rewrite (Search_bad_status bin st H T S). repeat split.
Qed.

Lemma Search_status_code_error_witness :
  fst (Search "5288230" (mock_state (reply 429 EmptyString)))
  = (None,
     Some (errors.Wrap (StatusCodeError 429) "Failed Due to Status Code Error")).
Proof.
  apply (@Search_status_code_error unit "5288230" (mock_state (reply 429 EmptyString))
           {| http.StatusCode := 429;
              http.Body := {| http.content := json_text EmptyString; http.fault := None |} |}
           tt).
  - reflexivity.
  - reflexivity.
  - discriminate.
Defined.

(** ** Decoding failures *)

(** The decoder reads the first JSON value of the body and nothing after
    it: a text that continues after that value is decoded like the value
    alone. *)
Example Decode_reads_first_value :
  Decode {| http.content := json_text "{'scheme':'visa'} and more";
            http.fault := None |} None
  = Decode {| http.content := json_text "{'scheme':'visa'}";
              http.fault := None |} None.
Proof. reflexivity. Qed.

Example Decode_syntax_error :
  Decode {| http.content := "<html>"; http.fault := None |} None
  = (None, Some json_SyntaxError).
Proof. reflexivity. Qed.

Example Decode_type_error :
  Decode {| http.content := "[1,2]"; http.fault := None |} None
  = (Some zero_BIN, Some (json_UnmarshalTypeError "array" "binlookup.BIN")).
Proof. reflexivity. Qed.

(** Once the scanner has seen the end of the first value, what follows
    in the body has no part in the result, and neither has a fault of the
    stream after it. *)
Lemma scan_first_value (a : string) :
  forall (s : json.scanner) (v : json.Value) (b : string),
    json.scan s a = json.scanEnd v -> json.scan s (a ++ b) = json.scanEnd v.
Proof.
  induction a as [|c a IH]; intros s v b H; simpl in *.
  - discriminate.
  - destruct (json.step_byte s c) as [s'| |]; auto.
Qed.

Lemma readValue_first_value (a b : string) (f : option foreign_error)
      (v : json.Value) :
  json.scan json.reset a = json.scanEnd v ->
  json.readValue {| http.content := a ++ b; http.fault := f |} = inl v.
Proof.
  intro H. unfold json.readValue. cbn [http.content].
  rewrite (scan_first_value a json.reset b H). reflexivity.
Qed.

(** C4. For every response with status 200 on whose body the decoder
    fails, [Search] returns an error that wraps the decoder's error (its
    cause is that error) under the message "JSON Unmarshaling Failed"; the
    error is a decode failure for the caller and in no case a
    [StatusCodeError]. *)
Theorem Search_decode_error (W : Type) (bin : string) (st : state W)
        (resp : http.Response) (w : W) (b : option BIN) (e : foreign_error) :
  well_formed_bin bin = true ->
  http.Transport (Client st) (lookup_request bin) (world st) = (inl resp, w) ->
  http.StatusCode resp = 200 ->
  Decode (http.Body resp) None = (b, Some e) ->
  let err := errors.WithMessage (foreign e) "JSON Unmarshaling Failed" in
  snd (fst (Search bin st)) = Some err
  /\ errors.Cause err = foreign e
  /\ kind_of err = DecodeError
  /\ (forall code, errors.Cause err <> StatusCodeError code)
  /\ (forall code, kind_of err <> StatusCodeFailure code).
Proof.
  intros H T S D err.
  rewrite (Search_decode_fails bin st H T S D).
  repeat split; intros code; discriminate.
Qed.

Lemma Search_decode_error_witness :
  snd (fst (Search "5288230" (mock_state (reply 200 "<html>"))))
  = Some (errors.WithMessage (foreign json_SyntaxError) "JSON Unmarshaling Failed").
Proof.
  apply (@Search_decode_error unit "5288230" (mock_state (reply 200 "<html>"))
           {| http.StatusCode := 200;
              http.Body := {| http.content := json_text "<html>";
                              http.fault := None |} |}
           tt None json_SyntaxError); reflexivity.
Defined.

(** ** The kinds of failure *)

(** C5. Whatever error [Search] returns, what the caller can read from
    the error value ([kind_of]) is the failure that occurred: validation,
    transport, the status code of the response, or decoding; and when
    [Search] returns no error, none of them occurred. *)
Theorem Search_error_tells_kind (W : Type) (bin : string) (st : state W) :
  match snd (fst (Search bin st)) with
  | Some err => occurred bin st = Some (kind_of err)
  | None => occurred bin st = None
  end.
Proof.
  unfold occurred, answer. destruct (well_formed_bin bin) eqn:H.
  - rewrite Search_requests by assumption. cbn [negb].
    destruct (http.Transport (Client st) (lookup_request bin) (world st))
      as [[resp|e] w]; cbn [fst snd].
    + destruct (http.StatusCode resp =? 200).
      * destruct (Decode (http.Body resp) None) as [b [e|]]; reflexivity.
      * reflexivity.
    + reflexivity.
  - rewrite Search_rejects by assumption. reflexivity.
Qed.

(** ** Requests and the response body *)

(** C6. A call on a well-formed [bin] adds to the trace exactly one
    request, whatever the status code of the response (429 included), and
    after a response the closing of its body, on each of the paths: status
    error, decode error and success.  Without a response only the request
    is added. *)
Theorem Search_one_request_body_closed (W : Type) (bin : string) (st : state W) :
  well_formed_bin bin = true ->
  let st' := snd (Search bin st) in
  List.length (requests (trace st')) = S (List.length (requests (trace st)))
  /\ match answer bin st with
     | inl resp =>
         trace st'
         = (trace st ++ [http.RoundTrip (lookup_request bin);
                         http.BodyClose resp])%list
     | inr _ =>
         trace st' = (trace st ++ [http.RoundTrip (lookup_request bin)])%list
     end.
Proof.
  intros H st'. unfold st'. rewrite Search_trace by assumption.
  rewrite requests_app, length_app. split.
  - destruct (answer bin st); simpl; lia.
  - destruct (answer bin st); reflexivity.
Qed.

Lemma Search_one_request_body_closed_witness :
  trace (snd (Search "5288230" (mock_state (reply 429 EmptyString))))
  = [http.RoundTrip (lookup_request "5288230");
     http.BodyClose {| http.StatusCode := 429;
                       http.Body := {| http.content := EmptyString;
                                       http.fault := None |} |}].
Proof.
  apply (@Search_one_request_body_closed unit "5288230"
           (mock_state (reply 429 EmptyString))).
  reflexivity.
Defined.

(** C9. For every well-formed [bin], the one request of the call is a
    GET whose URL is "https://lookup.binlist.net/" followed by [bin] as
    it was given; it is this request that the transport of [Client]
    receives. *)
Theorem Search_request_is_GET_endpoint_bin (W : Type) (bin : string)
        (st : state W) :
  well_formed_bin bin = true ->
  requests (trace (snd (Search bin st)))
  = (requests (trace st)
     ++ [{| http.Method := "GET";
            http.URL := "https://lookup.binlist.net/" ++ bin |}])%list
  /\ world (snd (Search bin st))
     = snd (http.Transport (Client st)
              {| http.Method := "GET";
                 http.URL := "https://lookup.binlist.net/" ++ bin |}
              (world st)).
Proof.
  intro H. split.
  - rewrite Search_trace by assumption. rewrite requests_app. simpl.
    destruct (answer bin st); reflexivity.
  - rewrite Search_world, H. reflexivity.
Qed.

Lemma Search_request_is_GET_endpoint_bin_witness :
  requests (trace (snd (Search "5288230" (mock_state (reply 200 "{}")))))
  = [{| http.Method := "GET";
        http.URL := "https://lookup.binlist.net/5288230" |}].
Proof.
  apply (@Search_request_is_GET_endpoint_bin unit "5288230"
           (mock_state (reply 200 "{}"))).
  reflexivity.
Defined.

(** ** A body that is [null] *)

(** C7. When the response has status 200 and its body is the text
    [null], [Search] returns a nil result together with a nil error. *)
Theorem Search_null_body (W : Type) (bin : string) (st : state W)
        (resp : http.Response) (w : W) :
  well_formed_bin bin = true ->
  http.Transport (Client st) (lookup_request bin) (world st) = (inl resp, w) ->
  http.StatusCode resp = 200 ->
  http.Body resp = {| http.content := "null"; http.fault := None |} ->
  fst (Search bin st) = (None, None).
Proof.
  intros H T S B.
  assert (D : Decode (http.Body resp) None = (None, None))
    by (rewrite B; reflexivity).
  rewrite (Search_succeeds bin st H T S D). reflexivity.
Qed.

Lemma Search_null_body_witness :
  fst (Search "5288230" (mock_state (reply 200 "null"))) = (None, None).
Proof.
  apply (@Search_null_body unit "5288230" (mock_state (reply 200 "null"))
           {| http.StatusCode := 200;
              http.Body := {| http.content := "null"; http.fault := None |} |}
           tt); reflexivity.
Defined.

(** ** Repeated calls *)

(** C8. When a second call with the same [bin] gets from the transport
    the answer the first call got, it returns the results of the first
    call; a call changes nothing in the state but the world behind the
    transport and the trace, and leaves [Client] as it was. *)
Theorem Search_twice_same_result (W : Type) (bin : string) (st : state W) :
  answer bin (snd (Search bin st)) = answer bin st ->
  fst (Search bin (snd (Search bin st))) = fst (Search bin st)
  /\ Client (snd (Search bin st)) = Client st.
Proof.
  intro A. split.
  - apply Search_result_by_answer. assumption.
  - apply Search_keeps_Client.
Qed.

(** ** The HTTP client *)

(** C10. The client [Search] uses is the one held in the package
    variable [Client] at the time of the call, whatever a caller has put
    there: the request goes to its transport.  The value the variable
    starts with has a timeout of 10 seconds (10 000 000 000 ns). *)
Theorem Client_overridable_default_10s (W : Type) :
  (forall T, http.Timeout (default_Client (W:=W) T) = 10 * time.Second)
  /\ 10 * time.Second = 10000000000 * time.Nanosecond
  /\ (forall (c : http.Client W) (w : W) (tr : list http.event) (bin : string),
         let st := {| Client := c; world := w; trace := tr |} in
         world (snd (Search bin st))
         = (if well_formed_bin bin
            then snd (http.Transport c (lookup_request bin) w) else w)
         /\ Client (snd (Search bin st)) = c).
Proof.
  split; [reflexivity|]. split; [reflexivity|].
  intros c w tr bin st. split.
  - apply Search_world.
  - apply Search_keeps_Client.
Qed.

(** ** Decoding an object of the expected shape *)

Section ObjectFrom.
Import json payload.

Lemma member_head (k : string) (v : Value) (ms : list (string * Value)) :
  member k ((k, v) :: ms) = Some v.
Proof. unfold member; simpl. rewrite String.eqb_refl. reflexivity. Qed.

Lemma member_skip (k k' : string) (v : Value) (ms : list (string * Value)) :
  String.eqb k k' = false -> member k ((k', v) :: ms) = member k ms.
Proof. intro E. unfold member; simpl. rewrite E. reflexivity. Qed.

Lemma member_fresh (k : string) (ms : list (string * Value)) :
  existsb (fun m' => String.eqb k (fst m')) ms = false -> member k ms = None.
Proof.
  unfold member. induction ms as [|m ms IH]; simpl; intro H.
  - reflexivity.
  - apply orb_false_elim in H. destruct H as [E H]. rewrite E. auto.
Qed.

(** A key that folds to the name of no field selects no field. *)
Lemma lookup_field_unknown (F : Type) (fields : list (string * F)) (k : string) :
  existsb (fun f => String.eqb (foldName (fst f)) (foldName k)) fields = false ->
  lookup_field fields k = None.
Proof.
  intro H. unfold lookup_field.
  assert (E : find (fun f => String.eqb (foldName (fst f)) (foldName k)) fields
              = None).
  { induction fields as [|f fs IH]; simpl in *; [reflexivity|].
    apply orb_false_elim in H. destruct H as [E H]. rewrite E. auto. }
  rewrite E.
  assert (X : find (fun f => String.eqb (fst f) k) fields = None).
  { clear E. induction fields as [|[n f] fs IH]; simpl in *; [reflexivity|].
    apply orb_false_elim in H. destruct H as [E1 H].
    destruct (String.eqb_spec n k) as [->|_].
    - rewrite String.eqb_refl in E1. discriminate.
    - apply IH. assumption. }
  rewrite X. reflexivity.
Qed.

Variables (T F A : Type).
Variable fields : list (string * F).
Variable store : F -> Value -> T -> savedError -> T * savedError.
Variable schema : list (string * A).
Variable fit : A -> Value -> bool.
Variable from : T -> list (string * Value) -> T.

Hypothesis from_nil : forall x, from x [] = x.

(** One member: stored without an error, and accounted for by [from]. *)
Hypothesis from_member :
  forall k v ms x d,
    match known schema k with
    | Some t => fit t v = true
    | None => case_variant schema k = false
    end ->
    existsb (fun m' => String.eqb k (fst m')) ms = false ->
    let r := match lookup_field fields k with
             | Some f => store f v x d
             | None => (x, d)
             end in
    snd r = d /\ from (fst r) ms = from x ((k, v) :: ms).

Lemma object_from :
  forall ms x d,
    members_fit fit schema ms = true ->
    object fields store ms x d = (from x ms, d).
Proof.
  unfold object, members_fit.
  induction ms as [|[k v] ms IH]; intros x d H.
  - simpl. rewrite from_nil. reflexivity.
  - simpl in H. apply andb_prop in H. destruct H as [H1 H2].
    apply andb_prop in H1. destruct H1 as [Hfresh Hdist].
    apply andb_prop in H2. destruct H2 as [Hfit Hrest].
    apply negb_true_iff in Hfresh.
    assert (Hk : match known schema k with
                 | Some t => fit t v = true
                 | None => case_variant schema k = false
                 end).
    { destruct (known schema k); [assumption|].
      apply negb_true_iff. assumption. }
    destruct (from_member k v ms x d Hk Hfresh) as [Hd Hfrom].
    cbn [fold_left fst snd].
    destruct (match lookup_field fields k with
              | Some f => store f v x d
              | None => (x, d)
              end) as [x1 d1] eqn:R.
    cbn [fst snd] in Hd, Hfrom. subst d1.
    rewrite IH by (rewrite Hdist, Hrest; reflexivity).
    rewrite Hfrom. reflexivity.
Qed.

End ObjectFrom.

(** ** The structs of the package, member by member *)

Create HintDb payload.

Section Structs.
Import json payload.

Local Arguments member : simpl never.
Local Arguments object : simpl never.

Lemma member_nil (k : string) : member k [] = None.
Proof. reflexivity. Qed.


Lemma Number_from_nil (x : Number) : Number_from x [] = x.
Proof. destruct x; reflexivity. Qed.

#[local] Hint Unfold Number_from Country_from Bank_from BIN_from
int_at bool_at string_at float64_at object_at : payload.

Ltac known_key k name :=
destruct (String.eqb name k) eqn:?;
[ match goal with
  | E : String.eqb name k = true |- _ => apply String.eqb_eq in E; subst k
  end
| ].

Ltac members_rewritten :=
repeat first
  [ rewrite member_head
  | rewrite member_nil
  | rewrite member_skip by (assumption || reflexivity) ].

(** The member names a field of scalar kind. *)
Ltac scalar_member v Hfit Hfresh :=
apply member_fresh in Hfresh;
cbn in Hfit;
destruct v as [| |lit| | |]; try discriminate Hfit;
cbn in Hfit;
try (match type of Hfit with
     | is_some ?p = true => destruct p eqn:?; [|discriminate Hfit]
     end);
cbn; autounfold with payload; members_rewritten; rewrite ?Hfresh;
repeat match goal with P : _ = Some _ |- _ => rewrite P end;
cbn; split; reflexivity.

(** The member names no field. *)
Ltac foreign_member k Hfit :=
unfold known in Hfit; cbn -[String.eqb foldName] in Hfit;
repeat match goal with
       | E : String.eqb _ k = false |- _ => rewrite E in Hfit
       end;
cbn -[String.eqb foldName] in Hfit;
rewrite lookup_field_unknown;
[ cbn; autounfold with payload; members_rewritten; split; reflexivity
| unfold case_variant in Hfit; cbn -[String.eqb] in Hfit; cbn -[String.eqb];
  repeat (apply orb_false_elim in Hfit;
          let E := fresh "E" in destruct Hfit as [E Hfit]; rewrite ?E);
  repeat match goal with E : _ = false |- _ => rewrite E end;
  reflexivity ].

Lemma Number_from_member :
forall k v ms x d,
  match known number_members k with
  | Some t => fits t v = true
  | None => case_variant number_members k = false
  end ->
  existsb (fun m' => String.eqb k (fst m')) ms = false ->
  let r := match lookup_field Number_fields k with
           | Some f => store_Number f v x d
           | None => (x, d)
           end in
  snd r = d /\ Number_from (fst r) ms = Number_from x ((k, v) :: ms).
Proof.
intros k v ms x d Hfit Hfresh. destruct x.
known_key k "length"; [scalar_member v Hfit Hfresh|].
known_key k "luhn"; [scalar_member v Hfit Hfresh|].
foreign_member k Hfit.
Qed.

Lemma object_Number ms x d :
members_fit fits number_members ms = true ->
object Number_fields store_Number ms x d = (Number_from x ms, d).
Proof. apply object_from; [apply Number_from_nil | apply Number_from_member]. Qed.

Lemma Country_from_nil (x : Country) : Country_from x [] = x.
Proof. destruct x; reflexivity. Qed.

Lemma Country_from_member :
forall k v ms x d,
  match known country_members k with
  | Some t => fits t v = true
  | None => case_variant country_members k = false
  end ->
  existsb (fun m' => String.eqb k (fst m')) ms = false ->
  let r := match lookup_field Country_fields k with
           | Some f => store_Country f v x d
           | None => (x, d)
           end in
  snd r = d /\ Country_from (fst r) ms = Country_from x ((k, v) :: ms).
Proof.
intros k v ms x d Hfit Hfresh. destruct x.
known_key k "numeric"; [scalar_member v Hfit Hfresh|].
known_key k "alpha2"; [scalar_member v Hfit Hfresh|].
known_key k "name"; [scalar_member v Hfit Hfresh|].
known_key k "emoji"; [scalar_member v Hfit Hfresh|].
known_key k "currency"; [scalar_member v Hfit Hfresh|].
known_key k "latitude"; [scalar_member v Hfit Hfresh|].
known_key k "longitude"; [scalar_member v Hfit Hfresh|].
foreign_member k Hfit.
Qed.

Lemma object_Country ms x d :
members_fit fits country_members ms = true ->
object Country_fields store_Country ms x d = (Country_from x ms, d).
Proof. apply object_from; [apply Country_from_nil | apply Country_from_member]. Qed.

Lemma Bank_from_nil (x : Bank) : Bank_from x [] = x.
Proof. destruct x; reflexivity. Qed.

Lemma Bank_from_member :
forall k v ms x d,
  match known bank_members k with
  | Some t => fits t v = true
  | None => case_variant bank_members k = false
  end ->
  existsb (fun m' => String.eqb k (fst m')) ms = false ->
  let r := match lookup_field Bank_fields k with
           | Some f => store_Bank f v x d
           | None => (x, d)
           end in
  snd r = d /\ Bank_from (fst r) ms = Bank_from x ((k, v) :: ms).
Proof.
intros k v ms x d Hfit Hfresh. destruct x.
known_key k "name"; [scalar_member v Hfit Hfresh|].
known_key k "url"; [scalar_member v Hfit Hfresh|].
known_key k "phone"; [scalar_member v Hfit Hfresh|].
known_key k "city"; [scalar_member v Hfit Hfresh|].
foreign_member k Hfit.
Qed.

Lemma object_Bank ms x d :
members_fit fits bank_members ms = true ->
object Bank_fields store_Bank ms x d = (Bank_from x ms, d).
Proof. apply object_from; [apply Bank_from_nil | apply Bank_from_member]. Qed.

Lemma BIN_from_nil (x : BIN) : BIN_from x [] = x.
Proof. destruct x as [[] ? ? ? ? [] []]; reflexivity. Qed.

(** The member names a field that is a struct. *)
Ltac composite_member v Hfit Hfresh :=
apply member_fresh in Hfresh;
cbn in Hfit;
destruct v as [| | | | |ms2]; try discriminate Hfit;
cbn;
rewrite ?(object_Number _ _ _ Hfit), ?(object_Country _ _ _ Hfit),
  ?(object_Bank _ _ _ Hfit);
unfold BIN_from, object_at, string_at, bool_at;
members_rewritten; rewrite ?Hfresh;
rewrite ?Number_from_nil, ?Country_from_nil, ?Bank_from_nil;
split; reflexivity.

Lemma BIN_from_member :
forall k v ms x d,
  match known payload_members k with
  | Some t => fits_shape t v = true
  | None => case_variant payload_members k = false
  end ->
  existsb (fun m' => String.eqb k (fst m')) ms = false ->
  let r := match lookup_field BIN_fields k with
           | Some f => store_BIN f v x d
           | None => (x, d)
           end in
  snd r = d /\ BIN_from (fst r) ms = BIN_from x ((k, v) :: ms).
Proof.
intros k v ms x d Hfit Hfresh. destruct x.
known_key k "number"; [composite_member v Hfit Hfresh|].
known_key k "scheme"; [scalar_member v Hfit Hfresh|].
known_key k "type"; [scalar_member v Hfit Hfresh|].
known_key k "brand"; [scalar_member v Hfit Hfresh|].
known_key k "prepaid"; [scalar_member v Hfit Hfresh|].
known_key k "country"; [composite_member v Hfit Hfresh|].
known_key k "bank"; [composite_member v Hfit Hfresh|].
foreign_member k Hfit.
Qed.

Lemma object_BIN ms x d :
members_fit fits_shape payload_members ms = true ->
object BIN_fields store_BIN ms x d = (BIN_from x ms, d).
Proof. apply object_from; [apply BIN_from_nil | apply BIN_from_member]. Qed.

Lemma unmarshal_expected_shape (v : Value) :
expected_shape v = true -> unmarshal v None = (Some (LookupResult v), None).
Proof.
destruct v as [| | | | |ms]; try discriminate. intro H.
unfold unmarshal, LookupResult, indirect. rewrite object_BIN by assumption.
reflexivity.
Qed.

End Structs.

(** ** The result of a successful lookup *)

Example denmark_result :
  payload.LookupResult denmark_value
  = {| BIN_Number := {| Length := 16; Luhn := true |};
       Scheme := "visa"; Type_ := "debit"; Brand := "Visa/Dankort";
       Prepaid := false;
       BIN_Country :=
         {| Numeric := "208"; Country_Name := "Denmark"; Emoji := "🇩🇰";
            Currency := "DKK"; Short := "DK";
            Lat := S754_finite false 7881299347898368 (-47);
            Long := S754_finite false 5629499534213120 (-49) |};
       BIN_Bank :=
         {| Bank_Name := "Jyske Bank"; URL := "www.jyskebank.dk";
            Phone := "+4589893300"; City := "Hjørring" |} |}.
Proof. reflexivity. Qed.

(** C3. For every response with status 200 whose body holds a JSON value
    of the expected shape, [Search] returns no error and a pointer to the
    record that maps the payload member by member: each field holds what
    the member of its name holds, decoded to the field's type and not
    otherwise changed, and the zero value when the member is absent or
    [null]. *)
Theorem Search_result_maps_payload (W : Type) (bin : string) (st : state W)
        (resp : http.Response) (w : W) (v : json.Value) :
  well_formed_bin bin = true ->
  http.Transport (Client st) (lookup_request bin) (world st) = (inl resp, w) ->
  http.StatusCode resp = 200 ->
  json.readValue (http.Body resp) = inl v ->
  payload.expected_shape v = true ->
  fst (Search bin st) = (Some (payload.LookupResult v), None).
Proof.
  intros H T S R E.
  assert (D : Decode (http.Body resp) None = (Some (payload.LookupResult v), None)).
  { unfold Decode. rewrite R. apply unmarshal_expected_shape. assumption. }
  rewrite (Search_succeeds bin st H T S D). reflexivity.
Qed.

Lemma Search_result_maps_payload_witness :
  fst (Search "45717360" (mock_state (reply 200 denmark)))
  = (Some (payload.LookupResult denmark_value), None).
Proof.
  apply (@Search_result_maps_payload unit "45717360"
           (mock_state (reply 200 denmark))
           {| http.StatusCode := 200;
              http.Body := {| http.content := json_text denmark;
                              http.fault := None |} |}
           tt denmark_value); reflexivity.
Defined.

Lemma Search_twice_same_result_witness :
  fst (Search "45717360"
         (snd (Search "45717360" (mock_state (reply 200 denmark)))))
  = fst (Search "45717360" (mock_state (reply 200 denmark))).
Proof.
  apply (@Search_twice_same_result unit "45717360"
           (mock_state (reply 200 denmark))).
  reflexivity.
Defined.

(* ================================================================== *)
(** * Further properties of the code *)

(** ** More on the paths of [Search] *)

Lemma answer_transport (W : Type) (bin : string) (st : state W) :
  http.Transport (Client st) (lookup_request bin) (world st)
  = (answer bin st,
     snd (http.Transport (Client st) (lookup_request bin) (world st))).
Proof.
  unfold answer.
  destruct (http.Transport (Client st) (lookup_request bin) (world st)).
  reflexivity.
Qed.

(** X1. When the transport fails on a well-formed [bin], [Search] returns
    a nil result and the [*url.Error] of [Client.Get] as it is: operation
    "Get", the URL of the lookup, the transport's error inside.  The error
    is not wrapped by [errors] (it has no [Cause] method and is its own
    cause), and nothing is closed: the trace grows by the request alone. *)
Theorem Search_transport_error_passed_on (W : Type) (bin : string)
        (st : state W) (e : foreign_error) :
  well_formed_bin bin = true ->
  answer bin st = inr e ->
  let err := foreign (url_Error "Get" ("https://lookup.binlist.net/" ++ bin) e) in
  fst (Search bin st) = (None, Some err)
  /\ errors.Cause err = err
  /\ has_Cause err = false
  /\ trace (snd (Search bin st))
     = (trace st ++ [http.RoundTrip (lookup_request bin)])%list.
Proof.
  intros H A err.
  rewrite Search_requests by assumption. rewrite answer_transport, A.
  repeat split.
Qed.

Lemma Search_transport_error_passed_on_witness :
  fst (Search "5288230" (mock_state (inr (net_Error "connection refused"))))
  = (None,
     Some (foreign (url_Error "Get" "https://lookup.binlist.net/5288230"
                      (net_Error "connection refused")))).
Proof.
  apply (@Search_transport_error_passed_on unit "5288230"
           (mock_state (inr (net_Error "connection refused")))
           (net_Error "connection refused")); reflexivity.
Defined.

(** X2. A [StatusCodeError] comes from a status code and from nothing
    else: when the cause of the error [Search] returns is
    [StatusCodeError code], then [bin] was well-formed, the transport
    answered with a response of exactly that status, and the code is not
    200. *)
Theorem StatusCodeError_only_from_status (W : Type) (bin : string)
        (st : state W) (err : error) (code : Z) :
  snd (fst (Search bin st)) = Some err ->
  errors.Cause err = StatusCodeError code ->
  well_formed_bin bin = true
  /\ code <> 200
  /\ exists resp, answer bin st = inl resp /\ http.StatusCode resp = code.
Proof.
  intros E C. destruct (well_formed_bin bin) eqn:H.
  - rewrite Search_requests in E by assumption.
    rewrite answer_transport in E.
    destruct (answer bin st) as [resp|e] eqn:A; cbn [fst snd] in E.
    + destruct (http.StatusCode resp =? 200) eqn:S.
      * destruct (Decode (http.Body resp) None) as [b [e|]]; cbn [snd] in E;
          [|discriminate].
        injection E as <-. discriminate C.
      * cbn [snd] in E. injection E as <-. cbn in C. injection C as <-.
        apply Z.eqb_neq in S. split; [reflexivity|]. split; [assumption|].
        exists resp. split; reflexivity.
    + injection E as <-. discriminate C.
  - rewrite Search_rejects in E by assumption. cbn in E. injection E as <-.
    discriminate C.
Qed.

Lemma StatusCodeError_only_from_status_witness :
  well_formed_bin "5288230" = true
  /\ 404 <> 200
  /\ exists resp,
      answer "5288230" (mock_state (reply 404 EmptyString)) = inl resp
      /\ http.StatusCode resp = 404.
Proof.
  apply (@StatusCodeError_only_from_status unit "5288230"
           (mock_state (reply 404 EmptyString))
           (errors.Wrap (StatusCodeError 404) "Failed Due to Status Code Error")
           404); reflexivity.
Defined.

(** X3. [Search] returns a nil result together with a nil error exactly
    when [bin] is well-formed, the response has status 200 and the first
    JSON value of its body is [null]. *)
Theorem Search_nil_nil_iff_null (W : Type) (bin : string) (st : state W) :
  fst (Search bin st) = (None, None)
  <-> well_formed_bin bin = true
      /\ exists resp,
          answer bin st = inl resp
          /\ http.StatusCode resp = 200
          /\ json.readValue (http.Body resp) = inl json.JNull.
Proof.
  split.
  - intro E. destruct (well_formed_bin bin) eqn:H.
    + split; [reflexivity|].
      rewrite Search_requests in E by assumption.
      rewrite answer_transport in E.
      destruct (answer bin st) as [resp|e]; cbn [fst] in E; [|discriminate].
      exists resp. split; [reflexivity|].
      destruct (http.StatusCode resp =? 200) eqn:S; [|discriminate].
      apply Z.eqb_eq in S. split; [assumption|].
      unfold Decode in E.
      destruct (json.readValue (http.Body resp)) as [v|e]; [|discriminate].
      destruct v; cbn in E; try discriminate; try reflexivity.
      destruct (json.object BIN_fields store_BIN members zero_BIN None)
        as [x [e|]]; discriminate.
    + rewrite Search_rejects in E by assumption. discriminate.
  - intros [H [resp [A [S R]]]].
    rewrite Search_requests by assumption. rewrite answer_transport, A.
    cbn [fst]. rewrite S. unfold Decode. rewrite R. reflexivity.
Qed.

(** X4. When the first JSON value of a 200 body is an array, a string, a
    number or a boolean, [Search] returns a non-nil result, pointing to a
    zero [BIN], together with a non-nil error: the decoder's type error
    for that kind of value and type [binlookup.BIN], under the message
    "JSON Unmarshaling Failed". *)
Theorem Search_wrong_top_level_value (W : Type) (bin : string) (st : state W)
        (resp : http.Response) (v : json.Value) :
  well_formed_bin bin = true ->
  answer bin st = inl resp ->
  http.StatusCode resp = 200 ->
  json.readValue (http.Body resp) = inl v ->
  match v with json.JNull | json.JObject _ => False | _ => True end ->
  fst (Search bin st)
  = (Some zero_BIN,
     Some (errors.WithMessage
             (foreign (json_UnmarshalTypeError (json.describe v) "binlookup.BIN"))
             "JSON Unmarshaling Failed")).
Proof.
  intros H A S R V.
  rewrite Search_requests by assumption. rewrite answer_transport, A.
  cbn [fst]. rewrite S. unfold Decode. rewrite R.
  destruct v; try contradiction; reflexivity.
Qed.

Lemma Search_wrong_top_level_value_witness :
  fst (Search "5288230" (mock_state (reply 200 "[1,2]")))
  = (Some zero_BIN,
     Some (errors.WithMessage
             (foreign (json_UnmarshalTypeError "array" "binlookup.BIN"))
             "JSON Unmarshaling Failed")).
Proof.
  apply (@Search_wrong_top_level_value unit "5288230"
           (mock_state (reply 200 "[1,2]"))
           {| http.StatusCode := 200;
              http.Body := {| http.content := "[1,2]"; http.fault := None |} |}
           (json.JArray [json.JNumber "1"; json.JNumber "2"]));
    try reflexivity; exact I.
Defined.

(** X5. Once the first JSON value of a 200 body has ended, what follows
    it in the body, and a fault of the stream after it, do not change the
    results of [Search]: they are those of decoding that value alone. *)
Theorem Search_ignores_what_follows_first_value (W : Type) (bin : string)
        (st : state W) (resp : http.Response) (a b : string) (v : json.Value) :
  well_formed_bin bin = true ->
  answer bin st = inl resp ->
  http.StatusCode resp = 200 ->
  http.content (http.Body resp) = a ++ b ->
  json.scan json.reset a = json.scanEnd v ->
  fst (Search bin st)
  = (fst (unmarshal v None),
     option_map
       (fun e => errors.WithMessage (foreign e) "JSON Unmarshaling Failed")
       (snd (unmarshal v None))).
Proof.
  intros H A S B V.
  rewrite Search_requests by assumption. rewrite answer_transport, A.
  cbn [fst]. rewrite S. unfold Decode.
  destruct (http.Body resp) as [content fault]. cbn [http.content] in B. subst.
  rewrite (readValue_first_value a b fault V).
  destruct (unmarshal v None) as [x [e|]]; reflexivity.
Qed.

(** ** Type errors while an object is decoded *)

Section ObjectErrors.
Import json.

Variables (T F : Type).
Variable fields : list (string * F).
Variable store : F -> Value -> T -> savedError -> T * savedError.
Variable accepts : F -> Value -> bool.

Hypothesis store_null : forall f x d, store f JNull x d = (x, d).
Hypothesis store_accepted :
  forall f v x d, accepts f v = true -> snd (store f v x d) = d.
Hypothesis store_refused :
  forall f v x, accepts f v = false -> snd (store f v x None) <> None.
Hypothesis store_keeps_error :
  forall f v x e, snd (store f v x (Some e)) = Some e.
Hypothesis store_whatever_error :
  forall f v x d d', fst (store f v x d) = fst (store f v x d').

Lemma object_app (ms1 ms2 : list (string * Value)) (x : T) (d : savedError) :
  object fields store (ms1 ++ ms2) x d
  = object fields store ms2 (fst (object fields store ms1 x d))
      (snd (object fields store ms1 x d)).
Proof.
  unfold object. rewrite fold_left_app.
  destruct (fold_left _ ms1 (x, d)). reflexivity.
Qed.

Lemma object_cons (k : string) (v : Value) (ms : list (string * Value))
      (x : T) (d : savedError) :
  object fields store ((k, v) :: ms) x d
  = match lookup_field fields k with
    | Some f => object fields store ms (fst (store f v x d)) (snd (store f v x d))
    | None => object fields store ms x d
    end.
Proof.
  unfold object. cbn [fold_left fst snd].
  destruct (lookup_field fields k) as [f|]; [|reflexivity].
  destruct (store f v x d). reflexivity.
Qed.

Lemma object_null_member (ms1 ms2 : list (string * Value)) (k : string)
      (x : T) (d : savedError) :
  object fields store (ms1 ++ (k, JNull) :: ms2) x d
  = object fields store (ms1 ++ ms2) x d.
Proof.
  rewrite !object_app, object_cons.
  destruct (lookup_field fields k) as [f|]; [|reflexivity].
  rewrite store_null. reflexivity.
Qed.

Lemma object_keeps_error (ms : list (string * Value)) :
  forall x e, snd (object fields store ms x (Some e)) = Some e.
Proof.
  induction ms as [|[k v] ms IH]; intros x e.
  - reflexivity.
  - rewrite object_cons. destruct (lookup_field fields k) as [f|]; [|apply IH].
    rewrite store_keeps_error. apply IH.
Qed.

Lemma object_whatever_error (ms : list (string * Value)) :
  forall x d d',
    fst (object fields store ms x d) = fst (object fields store ms x d').
Proof.
  induction ms as [|[k v] ms IH]; intros x d d'.
  - reflexivity.
  - rewrite !object_cons. destruct (lookup_field fields k) as [f|]; [|apply IH].
    rewrite (store_whatever_error f v x d d'). apply IH.
Qed.

Lemma object_typed (ms : list (string * Value)) :
  forall x d,
    typed_members fields accepts ms = true ->
    snd (object fields store ms x d) = d.
Proof.
  unfold typed_members.
  induction ms as [|[k v] ms IH]; intros x d H.
  - reflexivity.
  - simpl in H. apply andb_prop in H. destruct H as [Hk H].
    rewrite object_cons. destruct (lookup_field fields k) as [f|]; [|auto].
    rewrite IH by assumption. apply store_accepted. assumption.
Qed.

Lemma object_ill_typed (ms : list (string * Value)) :
  forall x d,
    typed_members fields accepts ms = false ->
    snd (object fields store ms x d) <> None.
Proof.
  unfold typed_members.
  induction ms as [|[k v] ms IH]; intros x d H.
  - discriminate.
  - simpl in H. rewrite object_cons.
    destruct (lookup_field fields k) as [f|]; [|auto].
    destruct (accepts f v) eqn:A.
    + apply IH. assumption.
    + destruct d as [e|].
      * rewrite store_keeps_error, object_keeps_error. discriminate.
      * destruct (snd (store f v x None)) as [e|] eqn:E.
        -- rewrite object_keeps_error. discriminate.
        -- exfalso. eapply store_refused; eassumption.
Qed.

Lemma object_error_iff (ms : list (string * Value)) (x : T) :
  snd (object fields store ms x None) = None
  <-> typed_members fields accepts ms = true.
Proof.
  split.
  - intro E. destruct (typed_members fields accepts ms) eqn:Ty; [reflexivity|].
    exfalso. eapply object_ill_typed; eassumption.
  - intro Ty. apply object_typed. assumption.
Qed.

End ObjectErrors.

Section StructErrors.
Import json payload.

Ltac closed :=
  cbn; intros; first [reflexivity | discriminate | congruence].

Ltac by_field f v x :=
  destruct f, v as [| |lit| | |]; destruct x; cbn;
  first [ closed
        | destruct (strconv.ParseInt lit); closed
        | destruct (strconv.ParseFloat lit); closed ].

Lemma store_Number_null f x d : store_Number f JNull x d = (x, d).
Proof. destruct f, x; reflexivity. Qed.

Lemma store_Number_accepted f v x d :
  fits (Number_kind f) v = true -> snd (store_Number f v x d) = d.
Proof. destruct d; by_field f v x. Qed.

Lemma store_Number_refused f v x :
  fits (Number_kind f) v = false -> snd (store_Number f v x None) <> None.
Proof. by_field f v x. Qed.

Lemma store_Number_keeps_error f v x e :
  snd (store_Number f v x (Some e)) = Some e.
Proof. by_field f v x. Qed.

Lemma store_Number_whatever_error f v x d d' :
  fst (store_Number f v x d) = fst (store_Number f v x d').
Proof. destruct d, d'; by_field f v x. Qed.

Lemma store_Country_null f x d : store_Country f JNull x d = (x, d).
Proof. destruct f, x; reflexivity. Qed.

Lemma store_Country_accepted f v x d :
  fits (Country_kind f) v = true -> snd (store_Country f v x d) = d.
Proof. destruct d; by_field f v x. Qed.

Lemma store_Country_refused f v x :
  fits (Country_kind f) v = false -> snd (store_Country f v x None) <> None.
Proof. by_field f v x. Qed.

Lemma store_Country_keeps_error f v x e :
  snd (store_Country f v x (Some e)) = Some e.
Proof. by_field f v x. Qed.

Lemma store_Country_whatever_error f v x d d' :
  fst (store_Country f v x d) = fst (store_Country f v x d').
Proof. destruct d, d'; by_field f v x. Qed.

Lemma store_Bank_null f x d : store_Bank f JNull x d = (x, d).
Proof. destruct f, x; reflexivity. Qed.

Lemma store_Bank_accepted f v x d :
  fits (Bank_kind f) v = true -> snd (store_Bank f v x d) = d.
Proof. destruct d; by_field f v x. Qed.

Lemma store_Bank_refused f v x :
  fits (Bank_kind f) v = false -> snd (store_Bank f v x None) <> None.
Proof. by_field f v x. Qed.

Lemma store_Bank_keeps_error f v x e :
  snd (store_Bank f v x (Some e)) = Some e.
Proof. by_field f v x. Qed.

Lemma store_Bank_whatever_error f v x d d' :
  fst (store_Bank f v x d) = fst (store_Bank f v x d').
Proof. destruct d, d'; by_field f v x. Qed.

(** A field that is a struct. *)
Section StoreStruct.
Variables (T F : Type).
Variable type : string.
Variable fields : list (string * F).
Variable store : F -> Value -> T -> savedError -> T * savedError.
Variable kind : F -> kind.

Hypothesis store_accepted :
  forall f v x d, fits (kind f) v = true -> snd (store f v x d) = d.
Hypothesis store_refused :
  forall f v x, fits (kind f) v = false -> snd (store f v x None) <> None.
Hypothesis store_keeps_error :
  forall f v x e, snd (store f v x (Some e)) = Some e.
Hypothesis store_whatever_error :
  forall f v x d d', fst (store f v x d) = fst (store f v x d').

Lemma store_struct_accepted v x d :
  typed_struct fields kind v = true ->
  snd (store_struct type (object fields store) v x d) = d.
Proof.
  destruct v; try discriminate; cbn; [reflexivity|].
  apply object_typed. intros f v. apply store_accepted.
Qed.

Lemma store_struct_keeps_error v x e :
  snd (store_struct type (object fields store) v x (Some e)) = Some e.
Proof.
  destruct v; try reflexivity. cbn.
  apply object_keeps_error. apply store_keeps_error.
Qed.

Lemma store_struct_refused v x :
  typed_struct fields kind v = false ->
  snd (store_struct type (object fields store) v x None) <> None.
Proof.
  destruct v; try discriminate; cbn.
  apply object_ill_typed.
  - intros f v x0. apply store_refused.
  - apply store_keeps_error.
Qed.

Lemma store_struct_whatever_error v x d d' :
  fst (store_struct type (object fields store) v x d)
  = fst (store_struct type (object fields store) v x d').
Proof.
  destruct v; try reflexivity. cbn.
  apply object_whatever_error. apply store_whatever_error.
Qed.

End StoreStruct.

Lemma snd_let (A B C : Type) (p : A * B) (g : A -> C) :
  snd (let (y, d) := p in (g y, d)) = snd p.
Proof. destruct p; reflexivity. Qed.

Lemma fst_let (A B C : Type) (p : A * B) (g : A -> C) :
  fst (let (y, d) := p in (g y, d)) = g (fst p).
Proof. destruct p; reflexivity. Qed.

Lemma store_BIN_null f x d : store_BIN f JNull x d = (x, d).
Proof. destruct f, x; reflexivity. Qed.

Lemma store_BIN_accepted f v x d :
  BIN_accepts f v = true -> snd (store_BIN f v x d) = d.
Proof.
  destruct f; cbn [BIN_accepts store_BIN]; rewrite snd_let; intro H.
  - apply store_struct_accepted with (kind := Number_kind);
      [apply store_Number_accepted | assumption].
  - revert H. destruct d; by_field fScheme v x.
  - revert H. destruct d; by_field fScheme v x.
  - revert H. destruct d; by_field fScheme v x.
  - revert H. destruct d; by_field fScheme v x.
  - apply store_struct_accepted with (kind := Country_kind);
      [apply store_Country_accepted | assumption].
  - apply store_struct_accepted with (kind := Bank_kind);
      [apply store_Bank_accepted | assumption].
Qed.

Lemma store_BIN_keeps_error f v x e :
  snd (store_BIN f v x (Some e)) = Some e.
Proof.
  destruct f; cbn [store_BIN]; rewrite snd_let.
  - apply store_struct_keeps_error, store_Number_keeps_error.
  - by_field fScheme v x.
  - by_field fScheme v x.
  - by_field fScheme v x.
  - by_field fScheme v x.
  - apply store_struct_keeps_error, store_Country_keeps_error.
  - apply store_struct_keeps_error, store_Bank_keeps_error.
Qed.

Lemma store_BIN_refused f v x :
  BIN_accepts f v = false -> snd (store_BIN f v x None) <> None.
Proof.
  destruct f; cbn [BIN_accepts store_BIN]; rewrite snd_let; intro H.
  - apply store_struct_refused with (kind := Number_kind);
      [apply store_Number_refused | apply store_Number_keeps_error | assumption].
  - revert H. by_field fScheme v x.
  - revert H. by_field fScheme v x.
  - revert H. by_field fScheme v x.
  - revert H. by_field fScheme v x.
  - apply store_struct_refused with (kind := Country_kind);
      [apply store_Country_refused | apply store_Country_keeps_error | assumption].
  - apply store_struct_refused with (kind := Bank_kind);
      [apply store_Bank_refused | apply store_Bank_keeps_error | assumption].
Qed.

Lemma store_BIN_whatever_error f v x d d' :
  fst (store_BIN f v x d) = fst (store_BIN f v x d').
Proof.
  destruct f; cbn [store_BIN]; rewrite !fst_let.
  - f_equal. apply store_struct_whatever_error, store_Number_whatever_error.
  - f_equal. destruct d, d'; by_field fScheme v x.
  - f_equal. destruct d, d'; by_field fScheme v x.
  - f_equal. destruct d, d'; by_field fScheme v x.
  - f_equal. destruct d, d'; by_field fScheme v x.
  - f_equal. apply store_struct_whatever_error, store_Country_whatever_error.
  - f_equal. apply store_struct_whatever_error, store_Bank_whatever_error.
Qed.

End StructErrors.

(** X8. A member whose value is [null] changes nothing, wherever it
    stands among the members and whatever its key: decoding gives the
    result and the error it gives without that member.  This holds for
    [BIN] and for each of the structs [Number], [Country] and [Bank]. *)
Theorem null_member_changes_nothing
        (ms1 ms2 : list (string * json.Value)) (k : string) :
  (forall b,
      unmarshal (json.JObject (ms1 ++ (k, json.JNull) :: ms2)) b
      = unmarshal (json.JObject (ms1 ++ ms2)) b)
  /\ (forall x d,
         json.object Number_fields store_Number (ms1 ++ (k, json.JNull) :: ms2) x d
         = json.object Number_fields store_Number (ms1 ++ ms2) x d)
  /\ (forall x d,
         json.object Country_fields store_Country (ms1 ++ (k, json.JNull) :: ms2) x d
         = json.object Country_fields store_Country (ms1 ++ ms2) x d)
  /\ (forall x d,
         json.object Bank_fields store_Bank (ms1 ++ (k, json.JNull) :: ms2) x d
         = json.object Bank_fields store_Bank (ms1 ++ ms2) x d).
Proof.
  repeat split; intros.
  - unfold unmarshal.
    rewrite (@object_null_member _ _ BIN_fields store_BIN store_BIN_null).
    reflexivity.
  - apply object_null_member, store_Number_null.
  - apply object_null_member, store_Country_null.
  - apply object_null_member, store_Bank_null.
Qed.

(** X10. The error of decoding is the first type error met, and decoding
    goes on after it: when the members [ms1] give the error [e], so do
    [ms1] followed by any [ms2], and the record returned is the one that
    decoding [ms2] into the record of [ms1] gives. *)
Theorem first_type_error_is_kept_and_decoding_goes_on
        (ms1 ms2 : list (string * json.Value)) (b : option BIN)
        (e : foreign_error) :
  snd (unmarshal (json.JObject ms1) b) = Some e ->
  snd (unmarshal (json.JObject (ms1 ++ ms2)) b) = Some e
  /\ fst (unmarshal (json.JObject (ms1 ++ ms2)) b)
     = fst (unmarshal (json.JObject ms2) (fst (unmarshal (json.JObject ms1) b))).
Proof.
  unfold unmarshal. intro E.
  rewrite (@object_app _ _ BIN_fields store_BIN ms1 ms2).
  destruct (json.object BIN_fields store_BIN ms1 (indirect b) None)
    as [x1 d1] eqn:O1.
  cbn [fst snd] in *. subst d1.
  destruct (json.object BIN_fields store_BIN ms2 x1 (Some e)) as [x2 d2] eqn:O2.
  destruct (json.object BIN_fields store_BIN ms2 x1 None) as [x3 d3] eqn:O3.
  cbn [fst snd indirect]. rewrite O3. cbn [fst]. split.
  - change d2 with (snd (x2, d2)). rewrite <- O2.
    apply object_keeps_error, store_BIN_keeps_error.
  - f_equal. change x2 with (fst (x2, d2)). change x3 with (fst (x3, d3)).
    rewrite <- O2, <- O3.
    apply object_whatever_error, store_BIN_whatever_error.
Qed.

Lemma first_type_error_is_kept_and_decoding_goes_on_witness :
  snd (unmarshal (json.JObject [("scheme", json.JNumber "5");
                                ("type", json.JBool true);
                                ("brand", json.JString "Visa")]) None)
  = Some (json_UnmarshalTypeError "number" "string")
  /\ fst (unmarshal (json.JObject [("scheme", json.JNumber "5");
                                   ("type", json.JBool true);
                                   ("brand", json.JString "Visa")]) None)
     = fst (unmarshal (json.JObject [("type", json.JBool true);
                                     ("brand", json.JString "Visa")])
              (fst (unmarshal (json.JObject [("scheme", json.JNumber "5")]) None))).
Proof.
  apply (@first_type_error_is_kept_and_decoding_goes_on
           [("scheme", json.JNumber "5")]
           [("type", json.JBool true); ("brand", json.JString "Visa")]
           None (json_UnmarshalTypeError "number" "string")).
  reflexivity.
Defined.

(** X11. For a 200 response whose first JSON value is an object,
    [Search] returns a nil error exactly when every member that selects a
    field holds [null] or a value of the kind of that field (for [number],
    [country] and [bank]: an object whose members are so in turn); keys
    may repeat and stand in any order.  If not, the error is a decoder's
    error under the message "JSON Unmarshaling Failed". *)
Lemma unmarshal_error_iff (ms : list (string * json.Value)) (b : option BIN) :
  snd (unmarshal (json.JObject ms) b) = None <-> BIN_typed ms = true.
Proof.
  unfold unmarshal, BIN_typed.
  destruct (json.object BIN_fields store_BIN ms (indirect b) None)
    as [x d] eqn:O.
  cbn [snd]. change d with (snd (x, d)). rewrite <- O.
  apply object_error_iff.
  - apply store_BIN_accepted.
  - apply store_BIN_refused.
  - apply store_BIN_keeps_error.
Qed.

Theorem Search_decode_error_iff_ill_typed (W : Type) (bin : string)
        (st : state W) (resp : http.Response)
        (ms : list (string * json.Value)) :
  well_formed_bin bin = true ->
  answer bin st = inl resp ->
  http.StatusCode resp = 200 ->
  json.readValue (http.Body resp) = inl (json.JObject ms) ->
  (snd (fst (Search bin st)) = None <-> BIN_typed ms = true)
  /\ (BIN_typed ms = false ->
      exists e, snd (fst (Search bin st))
                = Some (errors.WithMessage (foreign e) "JSON Unmarshaling Failed")).
Proof.
  intros H A S R.
  rewrite Search_requests by assumption. rewrite answer_transport, A.
  cbn [fst]. rewrite S. unfold Decode. rewrite R.
  pose proof (unmarshal_error_iff ms None) as U.
  destruct (unmarshal (json.JObject ms) None) as [x [e|]]; cbn [fst snd] in *.
  - split.
    + split; [discriminate|]. intro Ty. apply U in Ty. discriminate.
    + intros _. exists e. reflexivity.
  - split.
    + split; [intros _; apply U; reflexivity | reflexivity].
    + intro Ty. assert (X : BIN_typed ms = true) by (apply U; reflexivity).
      rewrite X in Ty. discriminate.
Qed.

Lemma Search_decode_error_iff_ill_typed_witness :
  exists e,
    snd (fst (Search "5288230"
                (mock_state (reply 200 "{'number':{'length':16.5},'scheme':'visa'}"))))
    = Some (errors.WithMessage (foreign e) "JSON Unmarshaling Failed").
Proof.
  apply (@Search_decode_error_iff_ill_typed unit "5288230"
           (mock_state (reply 200 "{'number':{'length':16.5},'scheme':'visa'}"))
           {| http.StatusCode := 200;
              http.Body :=
                {| http.content :=
                     json_text "{'number':{'length':16.5},'scheme':'visa'}";
                   http.fault := None |} |}
           [("number", json.JObject [("length", json.JNumber "16.5")]);
            ("scheme", json.JString "visa")]); reflexivity.
Defined.

(** X12. Which field a key selects depends on the key up to case folding
    only: two keys with the same folded name select the same field, in
    [BIN], [Number], [Country] and [Bank]. *)
Lemma lookup_field_folded (F : Type) (fields : list (string * F)) (k : string) :
  distinct_folded fields = true ->
  json.lookup_field fields k = folded_field fields k.
Proof.
  unfold json.lookup_field, folded_field. intro D.
  destruct (find (fun f => String.eqb (fst f) k) fields) as [f|] eqn:E;
    [|reflexivity].
  induction fields as [|[n x] fs IH]; [discriminate|].
  simpl in D. apply andb_prop in D. destruct D as [Dn D].
  apply negb_true_iff in Dn.
  simpl in E. simpl.
  destruct (String.eqb_spec n k) as [->|N].
  - injection E as <-. rewrite String.eqb_refl. reflexivity.
  - destruct (String.eqb_spec (json.foldName n) (json.foldName k)) as [Fo|_].
    + exfalso. apply find_some in E. destruct E as [In E].
      apply String.eqb_eq in E. 
      assert (X : existsb
                (fun g => String.eqb (json.foldName (fst g)) (json.foldName n))
                fs = true).
      { apply existsb_exists. exists f. split; [assumption|].
        rewrite E, Fo. apply String.eqb_refl. }
      rewrite X in Dn. discriminate.
    + apply IH; assumption.
Qed.

Theorem field_selected_by_folded_name (k k' : string) :
  json.foldName k = json.foldName k' ->
  json.lookup_field BIN_fields k = json.lookup_field BIN_fields k'
  /\ json.lookup_field Number_fields k = json.lookup_field Number_fields k'
  /\ json.lookup_field Country_fields k = json.lookup_field Country_fields k'
  /\ json.lookup_field Bank_fields k = json.lookup_field Bank_fields k'.
Proof.
  intro E. rewrite !lookup_field_folded by reflexivity.
  unfold folded_field. rewrite E. repeat split.
Qed.

Lemma field_selected_by_folded_name_witness :
  json.lookup_field BIN_fields "SCHEME" = json.lookup_field BIN_fields "scheme".
Proof.
  apply (@field_selected_by_folded_name "SCHEME" "scheme"). reflexivity.
Defined.

(** ** The text of a [StatusCodeError] *)

Lemma no_space_uint (d : Decimal.uint) :
  no_space (NilEmpty.string_of_uint d) = true.
Proof. induction d; simpl; auto. Qed.

Lemma no_space_FormatInt (n : Z) : no_space (strconv.FormatInt n) = true.
Proof.
  unfold strconv.FormatInt, NilZero.string_of_int, NilZero.string_of_uint.
  destruct (Z.to_int n) as [d|d]; destruct d; simpl;
    rewrite ?no_space_uint; reflexivity.
Qed.

Lemma before_space_app (x y : string) :
  no_space x = true -> before_space (x ++ String " " y) = x.
Proof.
  induction x as [|c x IH]; simpl; intro H.
  - reflexivity.
  - apply andb_prop in H. destruct H as [C H].
    apply negb_true_iff in C. rewrite C, IH by assumption. reflexivity.
Qed.

Lemma FormatInt_inj (a b : Z) :
  strconv.FormatInt a = strconv.FormatInt b -> a = b.
Proof.
  unfold strconv.FormatInt. intro E.
  assert (N : forall n, Z.to_int n <> Decimal.Pos Decimal.Nil
                        /\ Z.to_int n <> Decimal.Neg Decimal.Nil).
  { intros [|p|p]; simpl; split; try discriminate;
      intros [= X]; apply (Unsigned.to_uint_nonnil p); assumption. }
  apply DecimalZ.to_int_inj.
  assert (X : Some (Z.to_int a) = Some (Z.to_int b)).
  { rewrite <- (NilZero.isi (Z.to_int a) (proj1 (N a)) (proj2 (N a))).
    rewrite <- (NilZero.isi (Z.to_int b) (proj1 (N b)) (proj2 (N b))).
    rewrite E. reflexivity. }
  injection X. auto.
Qed.

(** X14. The text of a [StatusCodeError] tells the code: what stands
    before its first space is the code in decimal, and two codes with the
    same text are equal. *)
Theorem StatusCodeError_Error_tells_code (a b : Z) :
  StatusCodeError_Error a = StatusCodeError_Error b ->
  a = b /\ before_space (StatusCodeError_Error a) = strconv.FormatInt a.
Proof.
  unfold StatusCodeError_Error. intro E. split.
  - apply FormatInt_inj.
    rewrite <- (@before_space_app (strconv.FormatInt a) (http.StatusText a)
                  (no_space_FormatInt a)).
    rewrite <- (@before_space_app (strconv.FormatInt b) (http.StatusText b)
                  (no_space_FormatInt b)).
    change (before_space (strconv.FormatInt a ++ " " ++ http.StatusText a)
            = before_space (strconv.FormatInt b ++ " " ++ http.StatusText b)).
    rewrite E. reflexivity.
  - apply before_space_app, no_space_FormatInt.
Qed.

(** ** The tests *)

Section TestRuns.
Variable W : Type.
Variable deadline_passed : W -> bool.
Implicit Types (st : state W).

Lemma well_formed_CorrectBIN : well_formed_bin CorrectBIN = true.
Proof. reflexivity. Qed.

(** X15. [TestSearchWithIncorrectBIN] passes in every state and leaves
    the state as it was: it makes no request, whatever the upstream. *)
Theorem TestSearchWithIncorrectBIN_passes_without_request st :
  TestSearchWithIncorrectBIN st = (passed, st).
Proof.
  unfold TestSearchWithIncorrectBIN, bind.
  rewrite Search_rejects by reflexivity. reflexivity.
Qed.

Lemma after_calls_S (n : nat) :
  forall st,
    after_calls (S n) st = snd (Search CorrectBIN (after_calls n st)).
Proof.
  induction n as [|n IH]; intro st.
  - reflexivity.
  - change (after_calls (S (S n)) st)
      with (after_calls (S n) (snd (Search CorrectBIN st))).
    rewrite IH. reflexivity.
Qed.

Lemma after_calls_requests (n : nat) :
  forall st,
    requests (trace (after_calls n st))
    = (requests (trace st) ++ repeat (lookup_request CorrectBIN) n)%list.
Proof.
  induction n as [|n IH]; intro st.
  - simpl. rewrite app_nil_r. reflexivity.
  - cbn [after_calls]. rewrite IH.
    rewrite Search_trace by reflexivity. rewrite requests_app.
    rewrite <- app_assoc. f_equal. simpl.
    destruct (answer CorrectBIN st); reflexivity.
Qed.

(** One pass of the loop. *)
Lemma expedition_S (fuel : nat) st :
  expedition deadline_passed (S fuel) st
  = match snd (fst (Search CorrectBIN st)) with
    | None => (Some passed, snd (Search CorrectBIN st))
    | Some err =>
        match errors.Cause err with
        | StatusCodeError sce =>
            if sce =? 429 then
              if deadline_passed (world (snd (Search CorrectBIN st)))
              then (Some Fatal_deadline, snd (Search CorrectBIN st))
              else expedition deadline_passed fuel (snd (Search CorrectBIN st))
            else (Some (Fatal_error err), snd (Search CorrectBIN st))
        | _ => (Some (Fatal_error err), snd (Search CorrectBIN st))
        end
    end.
Proof.
  cbn [expedition]. unfold bind at 1.
  destruct (Search CorrectBIN st) as [[b [err|]] st']; cbn [fst snd];
    [|reflexivity].
  destruct (errors.Cause err) as [| | |sce|]; try reflexivity.
  unfold http.StatusTooManyRequests. destruct (sce =? 429); [|reflexivity].
  unfold bind, ctx_Done. destruct (deadline_passed (world st')); reflexivity.
Qed.

Lemma expedition_throttled (fuel : nat) st :
  throttled deadline_passed st ->
  expedition deadline_passed (S fuel) st
  = expedition deadline_passed fuel (snd (Search CorrectBIN st)).
Proof.
  intros [[resp [A S]] D]. rewrite expedition_S, D.
  assert (N : http.StatusCode resp <> 200)
    by (rewrite S; discriminate).
  pose proof (Search_bad_status CorrectBIN st well_formed_CorrectBIN
                (eq_trans (answer_transport CorrectBIN st)
                          (f_equal2 pair A eq_refl)) N) as E.
  rewrite E. cbn [fst snd errors.Cause]. rewrite S. reflexivity.
Qed.

Lemma expedition_not_429 (fuel : nat) st :
  (forall resp, answer CorrectBIN st = inl resp -> http.StatusCode resp <> 429) ->
  expedition deadline_passed (S fuel) st
  = (Some match snd (fst (Search CorrectBIN st)) with
          | None => passed
          | Some err => Fatal_error err
          end,
     snd (Search CorrectBIN st)).
Proof.
  intro N. rewrite expedition_S.
  destruct (snd (fst (Search CorrectBIN st))) as [err|] eqn:E; [|reflexivity].
  destruct (errors.Cause err) as [| | |sce|] eqn:C; try reflexivity.
  destruct (StatusCodeError_only_from_status CorrectBIN st E C)
    as [_ [_ [resp [A S]]]].
  destruct (Z.eqb_spec sce 429) as [->|_]; [|reflexivity].
  exfalso. apply (N resp A). assumption.
Qed.

(** X16. [TestSearchWithCorrectBIN] calls [Search] again as long as
    upstream answers 429 and the deadline has not passed.  When the first
    [k] calls are throttled and the next answer is not a response with
    status 429, then with fuel for more than [k] passes the test ends
    after [k + 1] calls: it passes if the last call returns a nil error and
    fails with the error of that call if not; it has made [k + 1]
    requests, each for [CorrectBIN]. *)
Theorem TestSearchWithCorrectBIN_retries_while_throttled (k fuel : nat) :
  forall st,
    (k < fuel)%nat ->
    (forall i, (i < k)%nat -> throttled deadline_passed (after_calls i st)) ->
    (forall resp,
        answer CorrectBIN (after_calls k st) = inl resp ->
        http.StatusCode resp <> 429) ->
    TestSearchWithCorrectBIN deadline_passed fuel st
    = (Some match snd (fst (Search CorrectBIN (after_calls k st))) with
            | None => passed
            | Some err => Fatal_error err
            end,
       after_calls (S k) st)
    /\ requests (trace (after_calls (S k) st))
       = (requests (trace st) ++ repeat (lookup_request CorrectBIN) (S k))%list.
Proof.
  unfold TestSearchWithCorrectBIN.
  intros st L T N. split; [|apply after_calls_requests].
  revert fuel st L T N.
  induction k as [|k IH]; intros fuel st L T N.
  - destruct fuel as [|fuel]; [lia|].
    cbn [after_calls] in *. apply expedition_not_429. assumption.
  - destruct fuel as [|fuel]; [lia|].
    rewrite expedition_throttled by (apply (T 0%nat); lia).
    rewrite IH.
    + reflexivity.
    + lia.
    + intros i Hi. apply (T (S i)). lia.
    + assumption.
Qed.

(** X17. When upstream answers 429 and the deadline has passed when the
    call returns, [TestSearchWithCorrectBIN] fails with the error of the
    context after that one call, without a further request. *)
Theorem TestSearchWithCorrectBIN_stops_at_deadline (fuel : nat) st
        (resp : http.Response) :
  answer CorrectBIN st = inl resp ->
  http.StatusCode resp = 429 ->
  deadline_passed (world (snd (Search CorrectBIN st))) = true ->
  TestSearchWithCorrectBIN deadline_passed (S fuel) st
  = (Some Fatal_deadline, snd (Search CorrectBIN st)).
Proof.
  intros A S D. unfold TestSearchWithCorrectBIN. rewrite expedition_S, D.
  assert (N : http.StatusCode resp <> 200) by (rewrite S; discriminate).
  rewrite (Search_bad_status CorrectBIN st well_formed_CorrectBIN
             (eq_trans (answer_transport CorrectBIN st)
                       (f_equal2 pair A eq_refl)) N).
  cbn [fst snd errors.Cause]. rewrite S. reflexivity.
Qed.

(** X18. Whatever the upstream and however the test ends,
    [TestSearchWithCorrectBIN] does nothing but call [Search CorrectBIN],
    at most once for each pass: the requests it adds to the trace are
    lookups of [CorrectBIN], and [Client] is left as it was. *)
Theorem TestSearchWithCorrectBIN_only_calls_Search (fuel : nat) :
  forall st,
    exists n,
      (n <= fuel)%nat
      /\ snd (TestSearchWithCorrectBIN deadline_passed fuel st) = after_calls n st
      /\ requests (trace (snd (TestSearchWithCorrectBIN deadline_passed fuel st)))
         = (requests (trace st) ++ repeat (lookup_request CorrectBIN) n)%list
      /\ Client (snd (TestSearchWithCorrectBIN deadline_passed fuel st))
         = Client st.
Proof.
  unfold TestSearchWithCorrectBIN.
  assert (K : forall n st, Client (after_calls n st) = Client st).
  { induction n as [|n IH]; intro st; [reflexivity|].
    cbn [after_calls]. rewrite IH. apply Search_keeps_Client. }
  assert (G : forall st, exists n,
               (n <= fuel)%nat
               /\ snd (expedition deadline_passed fuel st) = after_calls n st).
  { induction fuel as [|fuel IH]; intro st.
    - exists 0%nat. split; [lia|reflexivity].
    - rewrite expedition_S.
      assert (One : exists n, (n <= S fuel)%nat
                              /\ snd (Search CorrectBIN st) = after_calls n st)
        by (exists 1%nat; split; [lia|reflexivity]).
      destruct (snd (fst (Search CorrectBIN st))) as [err|]; [|exact One].
      destruct (errors.Cause err) as [| | |sce|]; try exact One.
      destruct (sce =? 429); [|exact One].
      destruct (deadline_passed (world (snd (Search CorrectBIN st))));
        [exact One|].
      destruct (IH (snd (Search CorrectBIN st))) as [n [L E]].
      exists (S n). split; [lia|]. rewrite E. reflexivity. }
  intro st. destruct (G st) as [n [L E]]. exists n.
  rewrite E. repeat split; [assumption|apply after_calls_requests|apply K].
Qed.

Lemma Search_nil_error (bin : string) st :
  snd (fst (Search bin st)) = None ->
  exists resp, answer bin st = inl resp /\ http.StatusCode resp = 200.
Proof.
  intro E. pose proof (Search_error_tells_kind bin st) as K.
  rewrite E in K. unfold occurred in K.
  destruct (well_formed_bin bin); [|discriminate].
  cbn [negb] in K. destruct (answer bin st) as [resp|e]; [|discriminate].
  exists resp. split; [reflexivity|].
  destruct (Z.eqb_spec (http.StatusCode resp) 200); [assumption|discriminate].
Qed.

(** X19. When [TestSearchWithCorrectBIN] passes, one of its calls got a
    response with status 200 and returned a nil error, and every call
    before it was throttled (status 429, deadline not passed). *)
Theorem TestSearchWithCorrectBIN_pass_means_success (fuel : nat) :
  forall st,
    fst (TestSearchWithCorrectBIN deadline_passed fuel st) = Some passed ->
    exists n,
      (n < fuel)%nat
      /\ (forall i, (i < n)%nat -> throttled deadline_passed (after_calls i st))
      /\ snd (fst (Search CorrectBIN (after_calls n st))) = None
      /\ exists resp,
          answer CorrectBIN (after_calls n st) = inl resp
          /\ http.StatusCode resp = 200.
Proof.
  unfold TestSearchWithCorrectBIN.
  induction fuel as [|fuel IH]; intros st P.
  - discriminate.
  - rewrite expedition_S in P.
    destruct (snd (fst (Search CorrectBIN st))) as [err|] eqn:E.
    + destruct (errors.Cause err) as [| | |sce|] eqn:C; try discriminate.
      destruct (Z.eqb_spec sce 429) as [->|_]; [|discriminate].
      destruct (deadline_passed (world (snd (Search CorrectBIN st)))) eqn:D;
        [discriminate|].
      destruct (IH _ P) as [n [L [T [S R]]]].
      exists (Datatypes.S n). split; [lia|]. split; [|split; assumption].
      intros [|i] Hi.
      * cbn [after_calls]. split; [|assumption].
        destruct (StatusCodeError_only_from_status CorrectBIN st E C)
          as [_ [_ [resp [A St]]]].
        exists resp. split; assumption.
      * cbn [after_calls]. apply T. lia.
    + exists 0%nat. split; [lia|]. split; [intros i Hi; lia|].
      split; [assumption|]. apply Search_nil_error. assumption.
Qed.

End TestRuns.

Lemma TestSearchWithCorrectBIN_retries_while_throttled_witness :
  TestSearchWithCorrectBIN (fun _ => false) 5 (scripted_state throttled_twice)
  = (Some match snd (fst (Search CorrectBIN
                            (after_calls 2 (scripted_state throttled_twice)))) with
          | None => passed
          | Some err => Fatal_error err
          end,
     after_calls 3 (scripted_state throttled_twice))
  /\ requests (trace (after_calls 3 (scripted_state throttled_twice)))
     = (requests (trace (scripted_state throttled_twice))
        ++ repeat (lookup_request CorrectBIN) 3)%list.
Proof.
  apply (@TestSearchWithCorrectBIN_retries_while_throttled
           _ (fun _ => false) 2 5 (scripted_state throttled_twice)).
  - lia.
  - intros [|[|i]] Hi.
    + split; [eexists; split; reflexivity | reflexivity].
    + split; [eexists; split; reflexivity | reflexivity].
    + lia.
  - intros resp A. injection A as <-. discriminate.
Defined.

Lemma TestSearchWithCorrectBIN_stops_at_deadline_witness :
  TestSearchWithCorrectBIN (fun _ => true) 5 (scripted_state throttled_twice)
  = (Some Fatal_deadline, snd (Search CorrectBIN (scripted_state throttled_twice))).
Proof.
  apply (@TestSearchWithCorrectBIN_stops_at_deadline
           _ (fun _ => true) 4 (scripted_state throttled_twice)
           {| http.StatusCode := 429;
              http.Body := {| http.content := EmptyString;
                              http.fault := None |} |}); reflexivity.
Defined.

Lemma TestSearchWithCorrectBIN_pass_means_success_witness :
  exists n,
    (n < 5)%nat
    /\ (forall i, (i < n)%nat ->
                  throttled (fun _ => false)
                            (after_calls i (scripted_state throttled_twice)))
    /\ snd (fst (Search CorrectBIN
                   (after_calls n (scripted_state throttled_twice)))) = None
    /\ exists resp,
        answer CorrectBIN (after_calls n (scripted_state throttled_twice))
        = inl resp
        /\ http.StatusCode resp = 200.
Proof.
  apply (@TestSearchWithCorrectBIN_pass_means_success
           _ (fun _ => false) 5 (scripted_state throttled_twice)).
  reflexivity.
Defined.

Lemma StatusCodeError_Error_tells_code_witness :
  429 = 429 /\ before_space (StatusCodeError_Error 429) = strconv.FormatInt 429.
Proof.
  apply (@StatusCodeError_Error_tells_code 429 429). reflexivity.
Defined.

(** ** Bodies without a first value *)

Lemma scan_blank (s : string) :
  json.nonSpace s = false -> json.scan json.reset s = json.scanContinue json.reset.
Proof.
  induction s as [|c s IH]; simpl; intro H.
  - reflexivity.
  - apply orb_false_elim in H. destruct H as [C H].
    apply negb_false_iff in C.
    unfold json.step_byte, json.beginValue. cbn [json.step json.reset].
    rewrite C. apply IH. assumption.
Qed.

(** X6. A 200 response whose body is empty or holds white space only,
    and ends without a fault, gives a nil result and the error [io.EOF]
    under the message "JSON Unmarshaling Failed". *)
Theorem Search_blank_body (W : Type) (bin : string) (st : state W)
        (resp : http.Response) :
  well_formed_bin bin = true ->
  answer bin st = inl resp ->
  http.StatusCode resp = 200 ->
  json.nonSpace (http.content (http.Body resp)) = false ->
  http.fault (http.Body resp) = None ->
  fst (Search bin st)
  = (None,
     Some (errors.WithMessage (foreign io_EOF) "JSON Unmarshaling Failed")).
Proof.
  intros H A S B F.
  rewrite Search_requests by assumption. rewrite answer_transport, A.
  cbn [fst]. rewrite S. unfold Decode, json.readValue.
  rewrite (scan_blank _ B), F, B. reflexivity.
Qed.

Lemma Search_blank_body_witness :
  fst (Search "5288230" (mock_state (reply 200 "   ")))
  = (None,
     Some (errors.WithMessage (foreign io_EOF) "JSON Unmarshaling Failed")).
Proof.
  apply (@Search_blank_body unit "5288230" (mock_state (reply 200 "   "))
           {| http.StatusCode := 200;
              http.Body := {| http.content := "   "; http.fault := None |} |});
    reflexivity.
Defined.

(** X7. When the stream of a 200 body fails before the first JSON value
    is complete, [Search] returns a nil result and that failure under the
    message "JSON Unmarshaling Failed": to the caller it is a failure of
    decoding, not of the transport. *)
Theorem Search_stream_fault (W : Type) (bin : string) (st : state W)
        (resp : http.Response) (s : json.scanner) (e : foreign_error) :
  well_formed_bin bin = true ->
  answer bin st = inl resp ->
  http.StatusCode resp = 200 ->
  json.scan json.reset (http.content (http.Body resp)) = json.scanContinue s ->
  http.fault (http.Body resp) = Some e ->
  fst (Search bin st)
  = (None, Some (errors.WithMessage (foreign e) "JSON Unmarshaling Failed"))
  /\ kind_of (errors.WithMessage (foreign e) "JSON Unmarshaling Failed")
     = DecodeError.
Proof.
  intros H A S C F.
  rewrite Search_requests by assumption. rewrite answer_transport, A.
  cbn [fst]. rewrite S. unfold Decode, json.readValue.
  rewrite C, F. split; reflexivity.
Qed.

Lemma Search_stream_fault_witness :
  fst (Search "5288230"
         (mock_state
            (inl {| http.StatusCode := 200;
                    http.Body :=
                      {| http.content := json_text "{'scheme':'vi";
                         http.fault := Some (net_Error "connection reset") |} |})))
  = (None,
     Some (errors.WithMessage (foreign (net_Error "connection reset"))
             "JSON Unmarshaling Failed")).
Proof.
  eapply (@Search_stream_fault unit "5288230" _ _ _ (net_Error "connection reset"));
    reflexivity.
Defined.

(** ** Members the struct does not know *)

(** X9. A member whose key selects no field of [BIN] is dropped,
    whatever it holds and wherever it stands: decoding gives the result
    and the error it gives without that member. *)
Theorem unknown_member_is_dropped
        (ms1 ms2 : list (string * json.Value)) (k : string) (v : json.Value)
        (b : option BIN) :
  json.lookup_field BIN_fields k = None ->
  unmarshal (json.JObject (ms1 ++ (k, v) :: ms2)) b
  = unmarshal (json.JObject (ms1 ++ ms2)) b.
Proof.
  intro U. unfold unmarshal.
  rewrite !(@object_app _ _ BIN_fields store_BIN), object_cons, U.
  reflexivity.
Qed.

Lemma unknown_member_is_dropped_witness :
  unmarshal
    (json.JObject ([("scheme", json.JString "visa")]
                   ++ ("issuer", json.JArray [json.JNumber "1"])
                   :: [("type", json.JString "debit")])) None
  = unmarshal
      (json.JObject ([("scheme", json.JString "visa")]
                     ++ [("type", json.JString "debit")])) None.
Proof.
  apply (@unknown_member_is_dropped
           [("scheme", json.JString "visa")] [("type", json.JString "debit")]
           "issuer" (json.JArray [json.JNumber "1"]) None).
  reflexivity.
Defined.

(** ** The order of the members *)

Section Order.
Import json payload.

Lemma distinct_keys_NoDup (ms : list (string * Value)) :
  distinct_keys ms = true <-> NoDup (map fst ms).
Proof.
  induction ms as [|[k v] ms IH]; simpl.
  - split; [constructor|reflexivity].
  - rewrite andb_true_iff, negb_true_iff, IH. split.
    + intros [E N]. constructor; [|assumption].
      intro I. apply in_map_iff in I. destruct I as [[k' v'] [Ek I]].
      simpl in Ek. subst k'.
      assert (X : existsb (fun m' => String.eqb k (fst m')) ms = true).
      { apply existsb_exists. exists (k, v'). split; [assumption|].
        apply String.eqb_refl. }
      rewrite X in E. discriminate.
    + intro N. inversion N as [|? ? NI N']; subst. split; [|assumption].
      destruct (existsb (fun m' => String.eqb k (fst m')) ms) eqn:X;
        [|reflexivity].
      exfalso. apply NI. apply existsb_exists in X.
      destruct X as [[k' v'] [I E]]. simpl in E. apply String.eqb_eq in E.
      subst k'. apply in_map_iff. exists (k, v'). split; [reflexivity|assumption].
Qed.

Lemma member_In (ms : list (string * Value)) (k : string) (v : Value) :
  NoDup (map fst ms) -> (member k ms = Some v <-> In (k, v) ms).
Proof.
  unfold member. induction ms as [|[k' v'] ms IH]; simpl; intro N.
  - split; [discriminate|contradiction].
  - inversion N as [|? ? NI N']; subst.
    destruct (String.eqb_spec k k') as [->|D]; simpl.
    + split.
      * intros [= ->]. left. reflexivity.
      * intros [[= ->]|I]; [reflexivity|].
        exfalso. apply NI. apply in_map_iff. exists (k', v).
        split; [reflexivity|assumption].
    + rewrite (IH N'). split.
      * intro I. right. assumption.
      * intros [[= -> ->]|I]; [contradiction D; reflexivity|assumption].
Qed.

Lemma member_Permutation (ms ms' : list (string * Value)) (k : string) :
  Permutation ms ms' -> NoDup (map fst ms) -> member k ms = member k ms'.
Proof.
  intros P N.
  assert (N' : NoDup (map fst ms'))
    by (apply (Permutation_NoDup (Permutation_map fst P)); assumption).
  destruct (member k ms) as [v|] eqn:E.
  - symmetry. apply (member_In ms' k v N').
    apply (Permutation_in _ P). apply (member_In ms k v N). assumption.
  - destruct (member k ms') as [v|] eqn:E'; [|reflexivity].
    apply (member_In ms' k v N') in E'.
    apply (Permutation_in _ (Permutation_sym P)) in E'.
    apply (member_In ms k v N) in E'. rewrite E' in E. discriminate.
Qed.

Lemma members_fit_Permutation (A : Type) (fit : A -> Value -> bool)
      (schema : list (string * A)) (ms ms' : list (string * Value)) :
  Permutation ms ms' ->
  members_fit fit schema ms = true -> members_fit fit schema ms' = true.
Proof.
  unfold members_fit. intros P H.
  apply andb_prop in H. destruct H as [D F].
  apply andb_true_intro. split.
  - apply distinct_keys_NoDup.
    apply (Permutation_NoDup (Permutation_map fst P)).
    apply distinct_keys_NoDup. assumption.
  - apply forallb_forall. intros m I.
    apply (proj1 (forallb_forall _ _) F).
    apply (Permutation_in _ (Permutation_sym P)). assumption.
Qed.

(** X13. For a payload of the expected shape the order of the members is
    immaterial: the members in any other order decode to the same result
    without an error. *)
Theorem member_order_is_immaterial (ms ms' : list (string * Value)) :
  Permutation ms ms' ->
  expected_shape (JObject ms) = true ->
  unmarshal (JObject ms') None = unmarshal (JObject ms) None.
Proof.
  intros P E.
  assert (E' : expected_shape (JObject ms') = true)
    by (apply (members_fit_Permutation _ _ P); assumption).
  rewrite !unmarshal_expected_shape by assumption.
  assert (N : NoDup (map fst ms)).
  { apply distinct_keys_NoDup. cbn in E. unfold members_fit in E.
    apply andb_prop in E. apply E. }
  unfold LookupResult, BIN_from, object_at, string_at, bool_at.
  rewrite !(member_Permutation _ P N). reflexivity.
Qed.

End Order.

Lemma member_order_is_immaterial_witness :
  unmarshal (json.JObject [("type", json.JString "debit");
                           ("scheme", json.JString "visa")]) None
  = unmarshal (json.JObject [("scheme", json.JString "visa");
                             ("type", json.JString "debit")]) None.
Proof.
  apply (@member_order_is_immaterial
           [("scheme", json.JString "visa"); ("type", json.JString "debit")]
           [("type", json.JString "debit"); ("scheme", json.JString "visa")]).
  - apply perm_swap.
  - reflexivity.
Defined.

Lemma Search_ignores_what_follows_first_value_witness :
  fst (Search "5288230"
         (mock_state (reply 200 "{'scheme':'visa'} and more")))
  = (fst (unmarshal (json.JObject [("scheme", json.JString "visa")]) None),
     option_map
       (fun e => errors.WithMessage (foreign e) "JSON Unmarshaling Failed")
       (snd (unmarshal (json.JObject [("scheme", json.JString "visa")]) None))).
Proof.
  apply (@Search_ignores_what_follows_first_value unit "5288230"
           (mock_state (reply 200 "{'scheme':'visa'} and more"))
           {| http.StatusCode := 200;
              http.Body :=
                {| http.content := json_text "{'scheme':'visa'} and more";
                   http.fault := None |} |}
           (json_text "{'scheme':'visa'}") " and more"
           (json.JObject [("scheme", json.JString "visa")])); reflexivity.
Defined.
